(** * XrayChain: the [Chain] class of src/XrayChain.py

    A shallow embedding of the tracing chain (Python 2): trace-context
    resolution in [__init__], the segment buffer with its backlog-triggered
    flush, the open-span table of [log_start]/[log_end] and the fork
    operations, followed by the properties of the specification that were
    checked against it.

    Conventions of the embedding.
    - A chain object is a record [Chain]; a method takes the chain and the
      process-level [World] and yields an [outcome]: it returns, it raises,
      or it never returns because it waits for [flush_lock].
    - [threading.Lock] is a boolean (true = held).  The model is sequential:
      acquiring a held lock never returns.
    - [os.urandom], [time.time] and [uuid.uuid1] are read from streams
      indexed by a tick kept in the world; [hmac] with SHA-256 and
      [json.dumps] are pure functions taken as section variables, and
      [json.dumps] is taken to succeed on what it is given.
    - [json.dumps] and writes to [sys.stderr] do not raise in the model:
      the properties below are about the errors of the chain itself and of
      the sink, not about values that cannot be serialized.
    - The decorators [trace] and [trace_associated] wrap a callable, which
      is a computation on the chain and the world. *)

From Stdlib Require Import Ascii String QArith HexString.
From stdpp Require Import gmap strings list fin_maps pretty.

Close Scope Q_scope.
Open Scope string_scope.
Open Scope list_scope.

(** ** Python values *)

(** The values that reach the chain through its untyped parameters
    ([name], [start_time], [end_time], [metadata], [annotations], [http]).
    Floats are carried as rationals; no property below computes with them. *)
#[local] Unset Elimination Schemes.
Inductive pyval : Type :=
| PyNone
| PyBool (b : bool)
| PyInt (z : Z)
| PyFloat (q : Q)
| PyStr (s : string)
| PyUnicode (s : string)
| PyList (l : list pyval)
| PyDict (items : list (string * pyval)).
#[local] Set Elimination Schemes.

(** [isinstance(v, str) or isinstance(v, unicode)] *)
Definition is_text (v : pyval) : bool :=
  match v with
  | PyStr _ | PyUnicode _ => true
  | _ => false
  end.

(** The spec's "non-empty text value". *)
Definition is_nonempty_text (v : pyval) : bool :=
  match v with
  | PyStr s | PyUnicode s => negb (String.eqb s "")
  | _ => false
  end.

Inductive exn : Type :=
| ValueError (msg : string)
| RuntimeError (msg : string)
| KeyError (key : string)
| SinkError (msg : string).

(** ** Strings: [str.split] and [dict] of pairs *)

(** [s.split(sep)] for a one-character separator. *)
Fixpoint split_on (sep : ascii) (s : string) : list string :=
  match s with
  | EmptyString => [EmptyString]
  | String c s' =>
      if Ascii.eqb c sep then EmptyString :: split_on sep s'
      else match split_on sep s' with
           | [] => [String c EmptyString]
           | p :: ps => String c p :: ps
           end
  end.

(** [dict(items)] where every item is the list produced by a split: an item
    whose length is not 2 raises [ValueError] (here [None]); a later pair
    with the same key replaces the earlier one. *)
Fixpoint py_dict (items : list (list string)) (acc : gmap string string)
  : option (gmap string string) :=
  match items with
  | [] => Some acc
  | [k; v] :: rest => py_dict rest (<[k:=v]> acc)
  | _ :: _ => None
  end.

(** The body of the [try] block of [__init__]: [None] when any step raises. *)
Definition parse_trace_header (s : string) : option (string * string * string) :=
  d ← py_dict (map (split_on "=") (split_on ";" s)) ∅;
  r ← d !! "Root";
  p ← d !! "Parent";
  sm ← d !! "Sampled";
  Some (r, p, sm).

(** [hex(int(t))[2:]] of Python 2 on a 64-bit build: [int] truncates towards
    zero, [hex] of a machine int is [0x..] (with a leading [-] when
    negative), and of a long carries the suffix [L]. *)
Definition py_int_of_float (t : Q) : Z := Z.quot (Qnum t) (Zpos (Qden t)).

Definition py_hex (z : Z) : string :=
  if ((- 2 ^ 63 <=? z) && (z <? 2 ^ 63))%Z then HexString.of_Z z
  else HexString.of_Z z +:+ "L".

Fixpoint drop_chars (n : nat) (s : string) : string :=
  match n, s with
  | O, _ => s
  | S n', String _ s' => drop_chars n' s'
  | S _, EmptyString => EmptyString
  end.

Definition newline : string := String (ascii_of_nat 10) EmptyString.

Fixpoint take_chars (n : nat) (s : string) : string :=
  match n, s with
  | S n', String c s' => String c (take_chars n' s')
  | _, _ => EmptyString
  end.

(** ** The chain object and the process around it *)

(** An entry of [self.in_progress]: [{"start_time": ..., "name": ...}]. *)
Record SpanInfo : Type := mkSpan {
  span_start_time : pyval;
  span_name : pyval
}.

Record Chain : Type := mkChain {
  trace_id_key : string;
  backlog : Z;
  segments : list string;
  trace_id : string;
  parent_id : option string;
  mock : bool;
  last_segment_id : option string;
  subsegment : bool;
  in_progress : gmap string SpanInfo;
  flush_lock : bool
}.

(** The answer of [put_trace_segments]: the response, or the message of the
    exception it raised.  It may depend on the batches submitted before. *)
Definition Sink : Type := list (list string) → list string → pyval + string.

Record World : Type := mkWorld {
  environ : gmap string string;
  client : option Sink;              (* the class attribute [Chain.__client] *)
  sink_calls : list (list string);   (* batches handed to the sink, oldest first *)
  stderr : list string;              (* what was written to [sys.stderr] *)
  tick : nat                         (* position in the random/time streams *)
}.

(** [Chain.__client], computed when the class body runs. *)
Definition class_client (env : gmap string string) (boto3_client : Sink) : option Sink :=
  match env !! "MOCK_XRAY" with
  | Some _ => None
  | None => Some boto3_client
  end.

Definition set_segments (c : Chain) (v : list string) : Chain :=
  mkChain (trace_id_key c) (backlog c) v (trace_id c) (parent_id c) (mock c)
          (last_segment_id c) (subsegment c) (in_progress c) (flush_lock c).

Definition set_last_segment_id (c : Chain) (v : option string) : Chain :=
  mkChain (trace_id_key c) (backlog c) (segments c) (trace_id c) (parent_id c) (mock c)
          v (subsegment c) (in_progress c) (flush_lock c).

Definition set_in_progress (c : Chain) (v : gmap string SpanInfo) : Chain :=
  mkChain (trace_id_key c) (backlog c) (segments c) (trace_id c) (parent_id c) (mock c)
          (last_segment_id c) (subsegment c) v (flush_lock c).

Definition set_flush_lock (c : Chain) (v : bool) : Chain :=
  mkChain (trace_id_key c) (backlog c) (segments c) (trace_id c) (parent_id c) (mock c)
          (last_segment_id c) (subsegment c) (in_progress c) v.

Definition next_tick (w : World) : World :=
  mkWorld (environ w) (client w) (sink_calls w) (stderr w) (S (tick w)).

Definition write_stderr (w : World) (lines : list string) : World :=
  mkWorld (environ w) (client w) (sink_calls w) (stderr w ++ lines) (tick w).

Definition record_sink_call (w : World) (batch : list string) : World :=
  mkWorld (environ w) (client w) (sink_calls w ++ [batch]) (stderr w) (tick w).

(** What a method call does: it returns a value, raises, or never returns
    (it waits for a lock that nobody releases).  Each case carries the chain
    and the world as the call left them. *)
Inductive outcome (A : Type) : Type :=
| Return (a : A) (c : Chain) (w : World)
| Raise (e : exn) (c : Chain) (w : World)
| Block (c : Chain) (w : World).

Arguments Return {A} a c w.
Arguments Raise {A} e c w.
Arguments Block {A} c w.

Definition bind {A B : Type} (m : outcome A) (k : A → Chain → World → outcome B)
  : outcome B :=
  match m with
  | Return a c w => k a c w
  | Raise e c w => Raise e c w
  | Block c w => Block c w
  end.

Definition chain_after {A : Type} (m : outcome A) : Chain :=
  match m with
  | Return _ c _ | Raise _ c _ | Block c _ => c
  end.

Definition world_after {A : Type} (m : outcome A) : World :=
  match m with
  | Return _ _ w | Raise _ _ w | Block _ w => w
  end.

(** ** The specification's notion of a malformed propagation string *)

Fixpoint count_char (ch : ascii) (s : string) : nat :=
  match s with
  | EmptyString => 0
  | String c s' => (if Ascii.eqb c ch then 1 else 0) + count_char ch s'
  end.

(** The text in front of the first [ch] (the whole string without one). *)
Fixpoint before_char (ch : ascii) (s : string) : string :=
  match s with
  | EmptyString => EmptyString
  | String c s' => if Ascii.eqb c ch then EmptyString else String c (before_char ch s')
  end.

(** A piece of the form [Key=Value]: exactly one [=]. *)
Definition key_value_shaped (piece : string) : bool :=
  Nat.eqb (count_char "=" piece) 1.

Definition header_keys (s : string) : list string :=
  map (before_char "=") (split_on ";" s).

Definition has_key (key : string) (s : string) : bool :=
  existsb (String.eqb key) (header_keys s).

(** "Bad separators": some [;]-separated piece is not [Key=Value]. *)
Definition bad_separators (s : string) : bool :=
  negb (forallb key_value_shaped (split_on ";" s)).

(** "Missing keys": one of the required keys does not occur. *)
Definition missing_keys (s : string) : bool :=
  negb (has_key "Root" s && has_key "Parent" s && has_key "Sampled" s).

Definition malformed_header (s : string) : bool :=
  bad_separators s || missing_keys s.

(** A value that contains neither separator. *)
Definition plain_value (s : string) : bool :=
  Nat.eqb (count_char ";" s) 0 && Nat.eqb (count_char "=" s) 0.

(** The propagation string in the form that the source assumes. *)
Definition trace_header (root parent sampled : string) : string :=
  "Root=" +:+ root +:+ ";Parent=" +:+ parent +:+ ";Sampled=" +:+ sampled.

(** ** Invariants and assumptions used by the statements *)

(** The buffer holds at most [backlog] records, and fewer while no flush is
    stuck. *)
Definition buffer_bounded (c : Chain) : Prop :=
  (Z.of_nat (length (segments c)) ≤ backlog c)%Z
  ∧ (flush_lock c = false → (Z.of_nat (length (segments c)) < backlog c)%Z).

(** The sink answers every batch. *)
Definition sink_never_raises (w : World) : Prop :=
  ∀ put, client w = Some put → ∀ history batch, ∃ resp, put history batch = inl resp.

(** What no call changes in the world: the environment and the sink. *)
Definition same_process (w w' : World) : Prop :=
  environ w' = environ w ∧ client w' = client w.

(** The chain [c] once [log] has stored the serialized record [doc] of the
    segment [id] (lines 233-235). *)
Definition buffered (c : Chain) (id : string) (doc : string) : Chain :=
  set_segments (set_last_segment_id c (Some id)) (segments c ++ [doc]).

(** The fields that are fixed when a chain is constructed. *)
Definition same_identity (c c' : Chain) : Prop :=
  trace_id_key c' = trace_id_key c ∧ backlog c' = backlog c
  ∧ trace_id c' = trace_id c ∧ parent_id c' = parent_id c
  ∧ mock c' = mock c ∧ subsegment c' = subsegment c.

(** The call came back to its caller: it returned or it raised. *)
Definition came_back {A : Type} (r : outcome A) : bool :=
  match r with
  | Block _ _ => false
  | _ => true
  end.

(** A chain in mock mode never holds its flush lock between calls. *)
Definition lock_discipline (c : Chain) : Prop :=
  mock c = true → flush_lock c = false.

Definition unset_env (name : string) (w : World) : World :=
  mkWorld (delete name (environ w)) (client w) (sink_calls w) (stderr w) (tick w).

(** ** Further notions used by the statements *)

(** Reading a dictionary value: its keys in order, and the value under a
    key. *)
Definition dict_items (v : pyval) : list (string * pyval) :=
  match v with
  | PyDict items => items
  | _ => []
  end.

Definition dict_keys (v : pyval) : list string := map fst (dict_items v).

Fixpoint assoc_get (key : string) (items : list (string * pyval)) : option pyval :=
  match items with
  | [] => None
  | (k, v) :: rest => if String.eqb k key then Some v else assoc_get key rest
  end.

Definition dict_get (key : string) (v : pyval) : option pyval :=
  assoc_get key (dict_items v).

Definition is_py_none (v : pyval) : bool :=
  match v with
  | PyNone => true
  | _ => false
  end.

(** The keys that a segment document can carry, in the order in which [log]
    sets them. *)
Definition segment_keys : list string :=
  ["name"; "id"; "trace_id"; "start_time"; "in_progress"; "end_time";
   "parent_id"; "type"; "metadata"; "http"; "annotations"].

(** The text behind the first [ch] (empty without one). *)
Fixpoint after_char (ch : ascii) (s : string) : string :=
  match s with
  | EmptyString => EmptyString
  | String c s' => if Ascii.eqb c ch then s' else after_char ch s'
  end.

(** The value of the last piece [key=value] among [pieces]. *)
Fixpoint last_value (key : string) (pieces : list string) : option string :=
  match pieces with
  | [] => None
  | piece :: rest =>
      match last_value key rest with
      | Some v => Some v
      | None =>
          if String.eqb (before_char "=" piece) key
          then Some (after_char "=" piece) else None
      end
  end.

(** Every serialized record that the chain has taken and not dropped: the
    batches handed to the sink, then the buffer. *)
Definition emitted (c : Chain) (w : World) : list string :=
  concat (sink_calls w) ++ segments c.

(** No call reaches the sink: the chain is in mock mode or the process has
    no client. *)
Definition offline (c : Chain) (w : World) : Prop :=
  mock c = true ∨ client w = None.

(** The flush of the chain comes back with an answer: nothing is sent (the
    chain is offline), or the sink answers whatever it is sent. *)
Definition flush_succeeds (c : Chain) (w : World) : Prop :=
  offline c w ∨ sink_never_raises w.

(** What holds between the state before a call and the state after it,
    whatever the call: the identity of the chain, the environment and the
    sink stay; nothing is written to [stderr] when the echo is off; nothing
    reaches the sink when the chain is offline; a held lock stays held. *)
Definition call_frame (echo : bool) (c : Chain) (w : World) (c' : Chain) (w' : World)
  : Prop :=
  same_identity c c' ∧ same_process w w'
  ∧ (echo = false → stderr w' = stderr w)
  ∧ (offline c w → sink_calls w' = sink_calls w)
  ∧ (flush_lock c = true → flush_lock c' = true).

(** The chain submits to a sink that answers, and its lock is free. *)
Definition live (c : Chain) (w : World) : Prop :=
  mock c = false ∧ is_Some (client w) ∧ flush_lock c = false ∧ sink_never_raises w.

(** ** Test doubles

    Concrete stand-ins for the library functions, used to run the model. *)
Module Demo.

Definition hmac (key msg : string) : string :=
  msg +:+ "-" +:+ key +:+ "-0123456789abcdef0123456789abcdef".

Definition uuid1 (n : nat) : string := "u" +:+ pretty n.

Definition urandom16 (n : nat) : string := "k" +:+ pretty n.

Definition clock (n : nat) : Q := inject_Z (1700000000 + Z.of_nat n).

Definition render_field (kv : string * pyval) : string :=
  kv.1 +:+ "=" +:+
  match kv.2 with
  | PyStr s | PyUnicode s => s
  | PyBool true => "true"
  | PyBool false => "false"
  | _ => "_"
  end.

Definition dumps (v : pyval) : string :=
  match v with
  | PyDict items => "{" +:+ String.concat "," (map render_field items) +:+ "}"
  | _ => "_"
  end.

Definition accepting_sink : Sink := λ _ _, inl (PyDict []).
Definition failing_sink : Sink := λ _ _, inr "endpoint unreachable".

Definition key : string := "k0".
Definition trace : string := "1-6553f101-0123456789abcdef01234567".

(** A chain in the state in which the constructor leaves it. *)
Definition chain (backlog_arg : Z) (mock_arg : bool) : Chain :=
  mkChain key backlog_arg [] trace None mock_arg None false ∅ false.

(** A chain that has emitted two segments, the second of them an open
    span. *)
Definition busy_chain (backlog_arg : Z) (mock_arg : bool) : Chain :=
  mkChain key backlog_arg ["{name=a}"; "{name=work}"] trace None mock_arg
          (Some "00000000000000a2") false
          {[ "00000000000000a2" := mkSpan (PyInt 1) (PyStr "work") ]} false.

(** A process without the trace variable, with the given sink. *)
Definition world (cl : option Sink) : World := mkWorld ∅ cl [] [] 0.

(** A process started with the trace variable set to [header]. *)
Definition world_with_header (header : string) : World :=
  mkWorld {[ "_X_AMZN_TRACE_ID" := header ]} None [] [] 0.

End Demo.

Section XrayChain.

(** [hmac.new(key, msg, hashlib.sha256).hexdigest()] *)
Variable hmac_sha256_hexdigest : string → string → string.
(** [json.dumps] *)
Variable json_dumps : pyval → string.
(** The n-th results of [os.urandom(16)], [time.time()] and
    [str(uuid.uuid1())]. *)
Variable os_urandom16 : nat → string.
Variable time_time : nat → Q.
Variable uuid_uuid1 : nat → string.

(** *** [Chain.__init__] *)

(** Lines 55-73: the three values read from [_X_AMZN_TRACE_ID]. *)
Definition env_trace_params (use_env_trace_params : bool) (w : World)
  : option (string * string * string) :=
  if use_env_trace_params then
    match environ w !! "_X_AMZN_TRACE_ID" with
    | Some s => parse_trace_header s
    | None => None
    end
  else None.

Definition env_trace_id (e : option (string * string * string)) : option string :=
  match e with Some (r, _, _) => Some r | None => None end.
Definition env_parent_id (e : option (string * string * string)) : option string :=
  match e with Some (_, p, _) => Some p | None => None end.
Definition env_sampled (e : option (string * string * string)) : option string :=
  match e with Some (_, _, s) => Some s | None => None end.

(** Lines 79-88: a fresh trace id; reads the clock and one uuid. *)
Definition fresh_trace_id (key : string) (w : World) : string * World :=
  let origin_time := time_time (tick w) in
  let w1 := next_tick w in
  let identifier := hmac_sha256_hexdigest key (uuid_uuid1 (tick w1)) in
  let w2 := next_tick w1 in
  ("1-" +:+ drop_chars 2 (py_hex (py_int_of_float origin_time)) +:+ "-"
     +:+ take_chars 24 identifier, w2).

Definition __init__ (backlog_arg : Z) (parent_id_arg : option string)
    (subsegment_arg : bool) (trace_id_arg : option string)
    (mock_arg : option bool) (use_env_trace_params : bool) (w : World)
  : Chain * World :=
  let key := os_urandom16 (tick w) in
  let w1 := next_tick w in
  let e := env_trace_params use_env_trace_params w1 in
  let '(tid, w2) :=
    match trace_id_arg with
    | None =>
        match env_trace_id e with
        | None => fresh_trace_id key w1
        | Some t => (t, w1)
        end
    | Some t => (t, w1)
    end in
  let pid :=
    match parent_id_arg with
    | None => env_parent_id e
    | Some p => Some p
    end in
  let mk :=
    match mock_arg with
    | Some m => m
    | None =>
        match env_sampled e with
        | Some s => if String.eqb s "1" then false else true
        | None => false
        end
    end in
  (mkChain key backlog_arg [] tid pid mk None subsegment_arg ∅ false, w2).

(** *** [Chain.__segment_id] *)

Definition __segment_id (c : Chain) (w : World) : string * World :=
  (take_chars 16 (hmac_sha256_hexdigest (trace_id_key c) (uuid_uuid1 (tick w))),
   next_tick w).

(** *** [Chain.flush] *)

(** [Chain.__client is not None and not os.environ.get("SQUELCH_XRAY",
    "FALSE") == "TRUE"] *)
Definition echo_enabled (w : World) : bool :=
  match client w with
  | Some _ => negb (String.eqb (default "FALSE" (environ w !! "SQUELCH_XRAY")) "TRUE")
  | None => false
  end.

Definition is_none {A : Type} (o : option A) : bool :=
  match o with None => true | Some _ => false end.

(** The dictionary synthesised when no call is made to the sink. *)
Definition mock_response (w : World) (c : Chain) : pyval :=
  PyDict [("MockXray", PyBool true);
          ("NoneClient", PyBool (is_none (client w)));
          ("ExplicitlyMocked", PyBool (mock c))].

(** Lines 336-341, after a response was obtained. *)
Definition flush_finish (nsegments : nat) (resp : pyval) (c : Chain) (w : World)
  : outcome nat :=
  let w' := if echo_enabled w then write_stderr w [json_dumps resp +:+ newline] else w in
  Return nsegments (set_flush_lock (set_segments c []) false) w'.

Definition flush (c : Chain) (w : World) : outcome nat :=
  if flush_lock c then Block c w
  else
    let c1 := set_flush_lock c true in
    if Nat.eqb (length (segments c1)) 0 then Return 0%nat (set_flush_lock c1 false) w
    else
      let nsegments := length (segments c1) in
      let w1 :=
        if echo_enabled w then
          write_stderr w
            (map (λ segment, segment +:+ newline) (segments c1)
             ++ ["Submitting " +:+ pretty nsegments +:+ " segments" +:+ newline])
        else w in
      match client w1, mock c1 with
      | Some put_trace_segments, false =>
          let w2 := record_sink_call w1 (segments c1) in
          match put_trace_segments (sink_calls w1) (segments c1) with
          | inl resp => flush_finish nsegments resp c1 w2
          | inr msg => Raise (SinkError msg) c1 w2
          end
      | _, _ => flush_finish nsegments (mock_response w1 c1) c1 w1
      end.

(** [Chain.__del__] *)
Definition __del__ (c : Chain) (w : World) : outcome nat := flush c w.

(** *** [Chain.log] *)

(** Truthiness of the [segment_id] argument: [None] and the empty string
    are false. *)
Definition truthy_id (segment_id : option string) : option string :=
  match segment_id with
  | Some s => if String.eqb s "" then None else Some s
  | None => None
  end.

Definition opt_field (key : string) (v : pyval) : list (string * pyval) :=
  match v with
  | PyNone => []
  | _ => [(key, v)]
  end.

(** The dictionary built on lines 206-231, keys in the order in which the
    code sets them. *)
Definition segment_dict (c : Chain) (start_time end_time name : pyval)
    (metadata annotations http : pyval) (id : string) : pyval :=
  PyDict
    ([("name", name); ("id", PyStr id); ("trace_id", PyStr (trace_id c));
      ("start_time", start_time)]
     ++ match end_time with
        | PyNone => [("in_progress", PyBool true)]
        | _ => [("end_time", end_time)]
        end
     ++ match parent_id c with
        | Some p => [("parent_id", PyStr p)]
        | None => []
        end
     ++ (if subsegment c then [("type", PyStr "subsegment")] else [])
     ++ opt_field "metadata" metadata
     ++ opt_field "http" http
     ++ opt_field "annotations" annotations).

Definition log (start_time end_time name : pyval)
    (metadata annotations http : pyval) (segment_id : option string)
    (c : Chain) (w : World) : outcome string :=
  if negb (is_text name) then
    Raise (ValueError "'name' Parameter must be a string") c w
  else
    let '(id, w1) :=
      match truthy_id segment_id with
      | Some s => (s, w)
      | None => __segment_id c w
      end in
    let segment := segment_dict c start_time end_time name metadata annotations http id in
    let c1 := set_last_segment_id c (Some id) in
    let c2 := set_segments c1 (segments c1 ++ [json_dumps segment]) in
    if (Z.of_nat (length (segments c2)) >=? backlog c2)%Z then
      bind (flush c2 w1) (λ _ c3 w3, Return id c3 w3)
    else Return id c2 w1.

(** The id that [log] gives the segment (line 208), with the world once
    it is chosen; a name for stating what [log] does. *)
Definition chosen_id (segment_id : option string) (c : Chain) (w : World)
  : string * World :=
  match truthy_id segment_id with
  | Some s => (s, w)
  | None => __segment_id c w
  end.

(** *** [Chain.log_start] and [Chain.log_end] *)

Definition log_start (name : pyval) (c : Chain) (w : World) : outcome string :=
  let start_time := PyFloat (time_time (tick w)) in
  let w1 := next_tick w in
  bind (log start_time PyNone name PyNone PyNone PyNone None c w1)
       (λ segment_id c' w',
          Return segment_id
            (set_in_progress c'
               (<[segment_id := mkSpan start_time name]> (in_progress c')))
            w').

Definition log_end (segment_id : string) (metadata annotations http : pyval)
    (c : Chain) (w : World) : outcome string :=
  match in_progress c !! segment_id with
  | None => Raise (KeyError segment_id) c w
  | Some segment =>
      let c1 := set_in_progress c (delete segment_id (in_progress c)) in
      let end_time := PyFloat (time_time (tick w)) in
      log (span_start_time segment) end_time (span_name segment)
          metadata annotations http (Some segment_id) c1 (next_tick w)
  end.

(** *** Forking *)

(** [Chain.__fork]: the forking chain is not modified; the child is built
    by the constructor, with [use_env_trace_params] at its default. *)
Definition __fork (subsegment_arg : bool) (parent_id_arg : option string)
    (c : Chain) (w : World) : exn + Chain * World :=
  if subsegment_arg && is_none (last_segment_id c) then
    inl (RuntimeError
           "Cannot create a subsegment fork() from a chain that has never emitted a segment")
  else
    let parent_id' :=
      match parent_id_arg with
      | None => last_segment_id c
      | Some p => Some p
      end in
    inr (__init__ (backlog c) parent_id' subsegment_arg (Some (trace_id c))
                  (Some (mock c)) true w).

Definition fork_subsegment (parent_id_arg : option string) (c : Chain) (w : World)
  : exn + Chain * World :=
  __fork true parent_id_arg c w.

Definition fork_root (parent_id_arg : option string) (c : Chain) (w : World)
  : exn + Chain * World :=
  __fork false parent_id_arg c w.

(** *** The decorators [Chain.trace] and [Chain.trace_associated]

    The wrapped callable is a computation on the chain and the world, as
    every method is; it may return, raise or never return. *)

Definition trace {A : Type} (name : pyval) (target : Chain → World → outcome A)
    (c : Chain) (w : World) : outcome A :=
  let start := PyFloat (time_time (tick w)) in
  bind (target c (next_tick w))
       (λ ret c1 w1,
          let end_ := PyFloat (time_time (tick w1)) in
          bind (log start end_ name PyNone PyNone PyNone None c1 (next_tick w1))
               (λ _ c2 w2, Return ret c2 w2)).

Definition trace_associated {A : Type} (name : pyval)
    (target : Chain → World → outcome A) (c : Chain) (w : World) : outcome A :=
  bind (log_start name c w)
       (λ segment_id c1 w1,
          bind (target c1 w1)
               (λ ret c2 w2,
                  bind (log_end segment_id PyNone PyNone PyNone c2 w2)
                       (λ _ c3 w3, Return ret c3 w3))).

(** *** Sequences of calls *)

(** The public operations that act on one chain. *)
Inductive call : Type :=
| CallLog (start_time end_time name metadata annotations http : pyval)
          (segment_id : option string)
| CallLogStart (name : pyval)
| CallLogEnd (segment_id : string) (metadata annotations http : pyval)
| CallFlush.

(** One call; the value returned is dropped. *)
Definition perform (op : call) (c : Chain) (w : World) : outcome unit :=
  match op with
  | CallLog st en nm md an ht sid =>
      bind (log st en nm md an ht sid c w) (λ _ c' w', Return tt c' w')
  | CallLogStart nm => bind (log_start nm c w) (λ _ c' w', Return tt c' w')
  | CallLogEnd sid md an ht =>
      bind (log_end sid md an ht c w) (λ _ c' w', Return tt c' w')
  | CallFlush => bind (flush c w) (λ _ c' w', Return tt c' w')
  end.

(** A caller that makes the calls one after the other and catches what
    they raise; it stops at a call that never returns. *)
Fixpoint perform_all (ops : list call) (c : Chain) (w : World) : outcome unit :=
  match ops with
  | [] => Return tt c w
  | op :: rest =>
      match perform op c w with
      | Return _ c' w' | Raise _ c' w' => perform_all rest c' w'
      | Block c' w' => Block c' w'
      end
  end.

(** The buffer lengths that a caller sees after each call of a sequence,
    up to the first call that does not return. *)
Fixpoint buffer_lengths (ops : list call) (c : Chain) (w : World) : list nat :=
  match ops with
  | [] => []
  | op :: rest =>
      match perform op c w with
      | Return _ c' w' => length (segments c') :: buffer_lengths rest c' w'
      | _ => []
      end
  end.

(** A call that records one segment: [log] with a name that is accepted. *)
Definition is_record_call (op : call) : bool :=
  match op with
  | CallLog _ _ name _ _ _ _ => is_text name
  | _ => false
  end.

(** A call that opens a span. *)
Definition is_log_start (op : call) : bool :=
  match op with
  | CallLogStart _ => true
  | _ => false
  end.

(** The chain has emitted a segment through [log], [log_start] or [log_end],
    and [s] is the id of the most recent one; flushes may have followed.
    The call that emitted it has returned [s], or it was a [log] that
    accepted the name and emitted under the id it chose, however its
    automatic flush then ended. *)
Inductive has_emitted : string → Chain → Prop :=
| emitted_by_log start_time end_time name metadata annotations http segment_id
    c0 w0 s c w :
    log start_time end_time name metadata annotations http segment_id c0 w0
    = Return s c w →
    has_emitted s c
| emitted_by_log_start name c0 w0 s c w :
    log_start name c0 w0 = Return s c w → has_emitted s c
| emitted_by_log_end segment_id metadata annotations http c0 w0 s c w :
    log_end segment_id metadata annotations http c0 w0 = Return s c w →
    has_emitted s c
| emitted_by_accepted_log start_time end_time name metadata annotations http
    segment_id c0 w0 :
    is_text name = true →
    has_emitted (chosen_id segment_id c0 w0).1
      (chain_after
         (log start_time end_time name metadata annotations http segment_id c0 w0))
| emitted_then_flush s c w :
    has_emitted s c → has_emitted s (chain_after (flush c w)).

(** ** Properties *)

(** *** Record updates and the world *)

Lemma set_flush_lock_same (c : Chain) (b : bool) :
  flush_lock c = b → set_flush_lock c b = c.
Proof. destruct c; simpl; intros ->; reflexivity. Qed.

Lemma set_segments_nil_same (c : Chain) :
  segments c = [] → set_segments c [] = c.
Proof. destruct c; simpl; intros ->; reflexivity. Qed.

Lemma release_after_clear (c : Chain) :
  flush_lock c = false →
  set_flush_lock (set_segments (set_flush_lock c true) []) false = set_segments c [].
Proof. destruct c; simpl; intros ->; reflexivity. Qed.

Lemma same_process_refl w : same_process w w.
Proof. split; reflexivity. Qed.

Lemma same_process_trans w1 w2 w3 :
  same_process w1 w2 → same_process w2 w3 → same_process w1 w3.
Proof. intros [? ?] [? ?]; split; congruence. Qed.

Lemma sink_never_raises_same w w' :
  same_process w w' → sink_never_raises w → sink_never_raises w'.
Proof.
  intros [_ Hc] H put Hput. apply H. congruence.
Qed.

Lemma echo_enabled_same w w' : same_process w w' → echo_enabled w' = echo_enabled w.
Proof. intros [He Hc]. unfold echo_enabled. rewrite He, Hc. reflexivity. Qed.

(** *** [flush], case by case *)

Lemma flush_locked c w : flush_lock c = true → flush c w = Block c w.
Proof. intros H. unfold flush. rewrite H. reflexivity. Qed.

Lemma flush_empty c w :
  flush_lock c = false → segments c = [] → flush c w = Return 0%nat c w.
Proof.
  destruct c; simpl; intros -> ->. reflexivity.
Qed.

Lemma flush_finish_spec n resp c w :
  ∃ w', flush_finish n resp c w
        = Return n (set_flush_lock (set_segments c []) false) w'
        ∧ same_process w w' ∧ sink_calls w' = sink_calls w ∧ tick w' = tick w.
Proof.
  unfold flush_finish. destruct (echo_enabled w).
  - eexists; split; [reflexivity |]. repeat split.
  - eexists; split; [reflexivity |]. repeat split.
Qed.

(** No call to the sink: the chain is in mock mode, or there is no client. *)
Lemma flush_offline c w :
  flush_lock c = false → (mock c = true ∨ client w = None) →
  ∃ w', flush c w = Return (length (segments c)) (set_segments c []) w'
        ∧ same_process w w' ∧ sink_calls w' = sink_calls w ∧ tick w' = tick w.
Proof.
  intros Hl Hoff. destruct (segments c) as [|s l] eqn:Hs.
  - exists w. rewrite flush_empty by assumption.
    rewrite set_segments_nil_same by assumption.
    repeat split.
  - unfold flush. rewrite Hl.
    change (segments (set_flush_lock c true)) with (segments c).
    change (mock (set_flush_lock c true)) with (mock c).
    rewrite Hs. cbn [length Nat.eqb].
    set (w1 := if echo_enabled w then _ else w).
    assert (Hw1 : same_process w w1 ∧ sink_calls w1 = sink_calls w ∧ tick w1 = tick w)
      by (subst w1; destruct (echo_enabled w); repeat split).
    destruct Hw1 as (Hp & Hsc & Ht).
    assert (Hfin : ∀ resp, ∃ w',
               flush_finish (S (length l)) resp (set_flush_lock c true) w1
               = Return (S (length l)) (set_segments c []) w'
               ∧ same_process w w' ∧ sink_calls w' = sink_calls w ∧ tick w' = tick w).
    { intros resp.
      destruct (flush_finish_spec (S (length l)) resp
                  (set_flush_lock c true) w1) as (w' & E & Hp' & Hsc' & Ht').
      exists w'. rewrite E, release_after_clear by exact Hl.
      repeat split; try congruence; destruct Hp, Hp'; congruence. }
    destruct Hoff as [Hm | Hc].
    + rewrite Hm. destruct (client w1); apply Hfin.
    + destruct Hp as [_ Hc1]. rewrite Hc1, Hc. apply Hfin.
Qed.

(** The sink is called and answers. *)
Lemma flush_submitted c w put resp :
  flush_lock c = false → mock c = false → segments c ≠ [] →
  client w = Some put → put (sink_calls w) (segments c) = inl resp →
  ∃ w', flush c w = Return (length (segments c)) (set_segments c []) w'
        ∧ same_process w w' ∧ sink_calls w' = sink_calls w ++ [segments c]
        ∧ tick w' = tick w.
Proof.
  intros Hl Hm Hne Hc Hput. destruct (segments c) as [|s l] eqn:Hs; [done |].
  unfold flush. rewrite Hl.
  change (segments (set_flush_lock c true)) with (segments c).
  change (mock (set_flush_lock c true)) with (mock c).
  rewrite Hs, Hm. cbn [length Nat.eqb].
  set (w1 := if echo_enabled w then _ else w).
  assert (Hw1 : same_process w w1 ∧ sink_calls w1 = sink_calls w ∧ tick w1 = tick w)
    by (subst w1; destruct (echo_enabled w); repeat split).
  destruct Hw1 as ([He1 Hc1] & Hsc & Ht).
  rewrite Hc1, Hc, Hsc, Hput.
  destruct (flush_finish_spec (S (length l)) resp (set_flush_lock c true)
              (record_sink_call w1 (s :: l))) as (w' & E & [He' Hc'] & Hsc' & Ht').
  exists w'. rewrite E, release_after_clear by exact Hl.
  repeat split; simpl in *; congruence.
Qed.

(** The sink is called and raises: the lock stays held and the buffer is
    as it was. *)
Lemma flush_sink_raises c w put msg :
  flush_lock c = false → mock c = false → segments c ≠ [] →
  client w = Some put → put (sink_calls w) (segments c) = inr msg →
  ∃ w', flush c w = Raise (SinkError msg) (set_flush_lock c true) w'
        ∧ same_process w w' ∧ sink_calls w' = sink_calls w ++ [segments c]
        ∧ tick w' = tick w.
Proof.
  intros Hl Hm Hne Hc Hput. destruct (segments c) as [|s l] eqn:Hs; [done |].
  unfold flush. rewrite Hl.
  change (segments (set_flush_lock c true)) with (segments c).
  change (mock (set_flush_lock c true)) with (mock c).
  rewrite Hs, Hm. cbn [length Nat.eqb].
  set (w1 := if echo_enabled w then _ else w).
  assert (Hw1 : same_process w w1 ∧ sink_calls w1 = sink_calls w ∧ tick w1 = tick w)
    by (subst w1; destruct (echo_enabled w); repeat split).
  destruct Hw1 as ([He1 Hc1] & Hsc & Ht).
  rewrite Hc1, Hc, Hsc, Hput.
  eexists. split; [reflexivity |].
  repeat split; simpl; congruence.
Qed.

Lemma flush_cases c w :
  (flush_lock c = true ∧ flush c w = Block c w)
  ∨ (flush_lock c = false
     ∧ ∃ w', flush c w = Return (length (segments c)) (set_segments c []) w'
             ∧ same_process w w' ∧ tick w' = tick w)
  ∨ (flush_lock c = false ∧ mock c = false ∧ segments c ≠ []
     ∧ ∃ msg w', flush c w = Raise (SinkError msg) (set_flush_lock c true) w'
                 ∧ same_process w w' ∧ tick w' = tick w).
Proof.
  destruct (flush_lock c) eqn:Hl.
  - left. split; [reflexivity |]. apply flush_locked; assumption.
  - right. destruct (mock c) eqn:Hm.
    + left. split; [reflexivity |].
      destruct (flush_offline c w Hl (or_introl Hm)) as (w' & E & ? & ? & ?). eauto.
    + destruct (client w) as [put |] eqn:Hc.
      * destruct (segments c) as [| s l] eqn:Hs.
        { left. split; [reflexivity |]. exists w.
          rewrite flush_empty by assumption.
          rewrite set_segments_nil_same by assumption.
          split; [reflexivity |]. split; [apply same_process_refl | reflexivity]. }
        destruct (put (sink_calls w) (segments c)) as [resp | msg] eqn:Hput.
        { left. split; [reflexivity |].
          destruct (flush_submitted c w put resp) as (w' & E & ? & ? & ?);
            try assumption; [congruence |].
          rewrite Hs in E. eauto. }
        { right. repeat split; [congruence |].
          destruct (flush_sink_raises c w put msg) as (w' & E & ? & ? & ?);
            try assumption; [congruence |]. eauto. }
      * left. split; [reflexivity |].
        destruct (flush_offline c w Hl (or_intror Hc)) as (w' & E & ? & ? & ?). eauto.
Qed.

(** With a sink that answers, a flush on a free lock returns. *)
Lemma flush_total c w :
  flush_lock c = false → sink_never_raises w →
  ∃ w', flush c w = Return (length (segments c)) (set_segments c []) w'
        ∧ same_process w w' ∧ tick w' = tick w.
Proof.
  intros Hl Hs.
  destruct (flush_cases c w) as [[Hl' _] | [[_ H] | (_ & Hm & Hne & msg & w' & E & _)]].
  - congruence.
  - exact H.
  - exfalso. destruct (client w) as [put |] eqn:Hc.
    + destruct (Hs put Hc (sink_calls w) (segments c)) as [resp Hput].
      destruct (flush_submitted c w put resp) as (w'' & E' & _); try assumption.
      congruence.
    + destruct (flush_offline c w Hl (or_intror Hc)) as (w'' & E' & _). congruence.
Qed.

(** *** [log], case by case *)

Lemma log_rejects start_time end_time name metadata annotations http segment_id c w :
  is_text name = false →
  log start_time end_time name metadata annotations http segment_id c w
  = Raise (ValueError "'name' Parameter must be a string") c w.
Proof. intros H. unfold log. rewrite H. reflexivity. Qed.

Lemma chosen_id_same_process segment_id c w :
  same_process w (chosen_id segment_id c w).2.
Proof.
  unfold chosen_id. destruct (truthy_id segment_id); split; reflexivity.
Qed.

Lemma log_accepts start_time end_time name metadata annotations http segment_id c w :
  is_text name = true →
  let id := (chosen_id segment_id c w).1 in
  let w1 := (chosen_id segment_id c w).2 in
  let c2 := buffered c id
              (json_dumps (segment_dict c start_time end_time name
                             metadata annotations http id)) in
  log start_time end_time name metadata annotations http segment_id c w
  = if (Z.of_nat (length (segments c2)) >=? backlog c)%Z
    then bind (flush c2 w1) (λ _ c3 w3, Return id c3 w3)
    else Return id c2 w1.
Proof.
  intros H. unfold log, chosen_id. rewrite H. cbn [negb].
  destruct (match truthy_id segment_id with
            | Some s => (s, w) | None => __segment_id c w end) as [id w1].
  reflexivity.
Qed.

(** Every way in which [log] can end, for a name that passes the check. *)
Lemma log_cases start_time end_time name metadata annotations http segment_id c w :
  is_text name = true →
  let r := log start_time end_time name metadata annotations http segment_id c w in
  let id := (chosen_id segment_id c w).1 in
  let w1 := (chosen_id segment_id c w).2 in
  let c2 := buffered c id
              (json_dumps (segment_dict c start_time end_time name
                             metadata annotations http id)) in
  ((Z.of_nat (length (segments c2)) < backlog c)%Z ∧ r = Return id c2 w1)
  ∨ ((backlog c ≤ Z.of_nat (length (segments c2)))%Z
     ∧ ((flush_lock c = true ∧ r = Block c2 w1)
        ∨ (flush_lock c = false
           ∧ ∃ w', r = Return id (set_segments c2 []) w' ∧ same_process w w')
        ∨ (flush_lock c = false ∧ mock c = false
           ∧ ∃ msg w', r = Raise (SinkError msg) (set_flush_lock c2 true) w'
                       ∧ same_process w w'))).
Proof.
  intros Ht r id w1 c2. subst r.
  rewrite log_accepts by exact Ht. fold id w1 c2.
  destruct (Z.geb_spec (Z.of_nat (length (segments c2))) (backlog c)) as [Hge | Hlt].
  - right. split; [lia |].
    pose proof (chosen_id_same_process segment_id c w) as Hp. fold w1 in Hp.
    destruct (flush_cases c2 w1)
      as [[Hl E] | [(Hl & w' & E & Hp' & _) | (Hl & Hm & _ & msg & w' & E & Hp' & _)]];
      rewrite E; cbn [bind].
    + left. split; [exact Hl | reflexivity].
    + right; left. split; [exact Hl |]. exists w'.
      split; [reflexivity | eapply same_process_trans; eassumption].
    + right; right. split; [exact Hl |]. split; [exact Hm |]. exists msg, w'.
      split; [reflexivity | eapply same_process_trans; eassumption].
  - left. split; [lia | reflexivity].
Qed.

(** *** The constructor *)

Lemma env_trace_params_next_tick ue w :
  env_trace_params ue (next_tick w) = env_trace_params ue w.
Proof. reflexivity. Qed.

Lemma init_fields b p sub t m ue w :
  let c := (__init__ b p sub t m ue w).1 in
  let e := env_trace_params ue w in
  backlog c = b ∧ subsegment c = sub ∧ segments c = [] ∧ last_segment_id c = None
  ∧ in_progress c = ∅ ∧ flush_lock c = false
  ∧ trace_id_key c = os_urandom16 (tick w)
  ∧ parent_id c = match p with Some x => Some x | None => env_parent_id e end
  ∧ mock c = match m with
             | Some x => x
             | None => match env_sampled e with
                       | Some s => negb (String.eqb s "1")
                       | None => false
                       end
             end
  ∧ trace_id c = match t with
                 | Some x => x
                 | None => match env_trace_id e with
                           | Some x => x
                           | None => (fresh_trace_id (os_urandom16 (tick w))
                                        (next_tick w)).1
                           end
                 end.
Proof.
  unfold __init__. rewrite env_trace_params_next_tick.
  destruct t as [x |]; [| destruct (env_trace_id (env_trace_params ue w)) as [x |]];
    cbn -[fresh_trace_id env_trace_params].
  - repeat split.
  - repeat split.
  - destruct (fresh_trace_id _ _) as [tid w2]. cbn -[env_trace_params].
    repeat split.
Qed.

(** A fork that passes the check builds its child with the constructor. *)
Lemma fork_child sub p c w :
  (sub = false ∨ is_Some (last_segment_id c)) →
  ∃ child w', __fork sub p c w = inr (child, w')
    ∧ parent_id child = match p with
                        | Some x => Some x
                        | None => match last_segment_id c with
                                  | Some s => Some s
                                  | None => env_parent_id (env_trace_params true w)
                                  end
                        end
    ∧ trace_id child = trace_id c ∧ backlog child = backlog c
    ∧ mock child = mock c ∧ subsegment child = sub.
Proof.
  intros H. unfold __fork.
  assert (sub && is_none (last_segment_id c) = false) as ->.
  { destruct H as [-> | [s ->]]; [reflexivity | apply andb_false_r]. }
  set (pid := match p with Some x => Some x | None => last_segment_id c end).
  pose proof (init_fields (backlog c) pid sub (Some (trace_id c)) (Some (mock c)) true w)
    as (Hb & Hsub & _ & _ & _ & _ & _ & Hp & Hm & Ht).
  destruct (__init__ _ _ _ _ _ _ _) as [child w'] eqn:E.
  exists child, w'. cbn [fst] in *. split; [reflexivity |].
  repeat split; try assumption.
  rewrite Hp. subst pid. destruct p; [reflexivity |].
  destruct (last_segment_id c); reflexivity.
Qed.

(** *** Sink failure (C1) *)

(** C1, as amended: when the sink's batch-submission call raises during
    [flush], the error reaches the caller of [flush]; the sink was handed
    the whole buffer once, and the buffer has not been cleared: the buffer,
    [last_segment_id], the open-span table and the identity of the chain
    are as they were when [flush] was called. *)
Theorem flush_sink_failure_propagates c w put msg :
  flush_lock c = false → mock c = false → segments c ≠ [] →
  client w = Some put → put (sink_calls w) (segments c) = inr msg →
  ∃ c' w', flush c w = Raise (SinkError msg) c' w'
           ∧ segments c' = segments c
           ∧ last_segment_id c' = last_segment_id c
           ∧ in_progress c' = in_progress c
           ∧ same_identity c c'
           ∧ sink_calls w' = sink_calls w ++ [segments c].
Proof.
  intros Hl Hm Hne Hc Hput.
  destruct (flush_sink_raises c w put msg Hl Hm Hne Hc Hput) as (w' & E & _ & Hsc & _).
  exists (set_flush_lock c true), w'.
  split; [exact E |]. repeat split. exact Hsc.
Qed.

(** *** Forks (C2, C8) *)

(** C2, as amended: [fork_subsegment] raises the illegal-fork error exactly
    when the forking chain has never emitted a segment, whether or not a
    [parent_id] is supplied; on a chain that has emitted a segment it
    builds the child, under the supplied [parent_id] when there is one and
    under [last_segment_id] otherwise. *)
Theorem fork_subsegment_illegal_iff_never_emitted p c w :
  (last_segment_id c = None →
   fork_subsegment p c w
   = inl (RuntimeError
            "Cannot create a subsegment fork() from a chain that has never emitted a segment"))
  ∧ (∀ s, last_segment_id c = Some s →
       ∃ child w', fork_subsegment p c w = inr (child, w')
                   ∧ subsegment child = true
                   ∧ parent_id child = Some (default s p)).
Proof.
  split.
  - intros H. unfold fork_subsegment, __fork. rewrite H. reflexivity.
  - intros s H.
    destruct (fork_child true p c w) as (child & w' & E & Hp & _ & _ & _ & Hsub).
    { right. rewrite H. eauto. }
    exists child, w'. split; [exact E |]. split; [exact Hsub |].
    rewrite Hp, H. destruct p; reflexivity.
Qed.

(** *** Invalid names (C3) *)

(** C3, as amended: a call to [log] whose [name] is not a text value is
    rejected with the invalid-input error before anything is buffered; the
    chain (buffer, [last_segment_id], open-span table) and the world are
    as before the call. *)
Theorem log_non_text_name_rejected
    start_time end_time name metadata annotations http segment_id c w :
  is_text name = false →
  let r := log start_time end_time name metadata annotations http segment_id c w in
  r = Raise (ValueError "'name' Parameter must be a string") c w
  ∧ segments (chain_after r) = segments c
  ∧ last_segment_id (chain_after r) = last_segment_id c
  ∧ in_progress (chain_after r) = in_progress c
  ∧ world_after r = w.
Proof.
  intros H r. subst r. rewrite log_rejects by exact H. repeat split.
Qed.

(** *** Mock mode and the empty buffer (C9) *)

(** C9: on a chain in mock mode, [flush] hands nothing to the sink, returns
    the number of segments that were buffered and leaves the buffer empty;
    on an empty buffer, mock or not, it returns 0 and changes nothing.
    The lock is free, as it is on every chain in mock mode that the
    operations can reach ([mock_chain_lock_free]). *)
Theorem flush_mock_mode c w :
  flush_lock c = false →
  (mock c = true →
   ∃ w', flush c w = Return (length (segments c)) (set_segments c []) w'
         ∧ segments (set_segments c []) = []
         ∧ sink_calls w' = sink_calls w)
  ∧ (segments c = [] → flush c w = Return 0%nat c w).
Proof.
  intros Hl. split.
  - intros Hm.
    destruct (flush_offline c w Hl (or_introl Hm)) as (w' & E & _ & Hsc & _).
    exists w'. repeat split; assumption.
  - intros Hs. apply flush_empty; assumption.
Qed.

(** *** What the operations preserve *)

Lemma chain_after_bind_return {A B : Type} (m : outcome A) (f : A → B) :
  chain_after (bind m (λ a c w, Return (f a) c w)) = chain_after m
  ∧ came_back (bind m (λ a c w, Return (f a) c w)) = came_back m.
Proof. destruct m; split; reflexivity. Qed.

Lemma buffered_length c id doc :
  length (segments (buffered c id doc)) = S (length (segments c)).
Proof. cbn. rewrite length_app. cbn. lia. Qed.

(** [log] changes the buffer, [last_segment_id] and possibly the lock,
    nothing else. *)
Lemma log_frame start_time end_time name metadata annotations http segment_id c w :
  let r := log start_time end_time name metadata annotations http segment_id c w in
  same_identity c (chain_after r) ∧ in_progress (chain_after r) = in_progress c
  ∧ same_process w (world_after r).
Proof.
  intros r. subst r. destruct (is_text name) eqn:Ht.
  - pose proof (chosen_id_same_process segment_id c w) as Hp.
    destruct (log_cases start_time end_time name metadata annotations http
                segment_id c w Ht)
      as [[_ E] | [_ [[_ E] | [(_ & w' & E & Hp') | (_ & _ & msg & w' & E & Hp')]]]];
      rewrite E; cbn [chain_after world_after]; repeat split; try apply Hp; try apply Hp'.
  - rewrite log_rejects by exact Ht. repeat split.
Qed.

Lemma log_lock_discipline start_time end_time name metadata annotations http
    segment_id c w :
  lock_discipline c →
  lock_discipline
    (chain_after (log start_time end_time name metadata annotations http segment_id c w)).
Proof.
  unfold lock_discipline. intros H. destruct (is_text name) eqn:Ht.
  - destruct (log_cases start_time end_time name metadata annotations http
                segment_id c w Ht)
      as [[_ E] | [_ [[_ E] | [(Hl & w' & E & _) | (_ & Hm & msg & w' & E & _)]]]];
      rewrite E; cbn; try exact H; try (intros _; exact Hl).
    intros Hm'. congruence.
  - rewrite log_rejects by exact Ht. exact H.
Qed.

Lemma flush_lock_discipline c w :
  lock_discipline c → lock_discipline (chain_after (flush c w)).
Proof.
  unfold lock_discipline. intros H.
  destruct (flush_cases c w)
    as [[_ E] | [(Hl & w' & E & _) | (_ & Hm & _ & msg & w' & E & _)]];
    rewrite E; cbn; try exact H; try (intros _; exact Hl).
  intros Hm'. congruence.
Qed.

Lemma log_buffer_bounded start_time end_time name metadata annotations http
    segment_id c w :
  let r := log start_time end_time name metadata annotations http segment_id c w in
  (1 ≤ backlog c)%Z → buffer_bounded c → came_back r = true →
  buffer_bounded (chain_after r).
Proof.
  intros r Hb [Hle Hlt] Hcb. subst r. destruct (is_text name) eqn:Ht.
  - pose proof (log_cases start_time end_time name metadata annotations http
                  segment_id c w Ht) as H.
    cbv zeta in H.
    pose proof (buffered_length c (chosen_id segment_id c w).1
                  (json_dumps (segment_dict c start_time end_time name metadata
                                 annotations http (chosen_id segment_id c w).1))) as Hlen.
    set (c2 := buffered _ _ _) in *.
    assert (Hb2 : backlog c2 = backlog c) by reflexivity.
    assert (Hl2 : flush_lock c2 = flush_lock c) by reflexivity.
    clearbody c2.
    destruct H
      as [[Hs E] | [Hs [[_ E] | [(Hl & w' & E & _) | (Hl & _ & msg & w' & E & _)]]]];
      rewrite E in *; cbn [chain_after came_back] in *; try discriminate;
      unfold buffer_bounded;
      cbn [set_segments set_flush_lock segments backlog flush_lock length];
      rewrite ?Hb2, ?Hl2.
    + split; [lia | intros _; exact Hs].
    + split; [lia | intros _; lia].
    + specialize (Hlt Hl). split; [lia | discriminate].
  - rewrite log_rejects by exact Ht. split; assumption.
Qed.

Lemma flush_buffer_bounded c w :
  (1 ≤ backlog c)%Z → buffer_bounded c → buffer_bounded (chain_after (flush c w)).
Proof.
  intros Hb [Hle Hlt].
  destruct (flush_cases c w)
    as [[_ E] | [(Hl & w' & E & _) | (_ & _ & _ & msg & w' & E & _)]];
    rewrite E; cbn [chain_after].
  - split; assumption.
  - split; cbn; [lia | intros _; lia].
  - split; [exact Hle | cbn; discriminate].
Qed.

Lemma perform_lock_discipline op c w :
  lock_discipline c → lock_discipline (chain_after (perform op c w)).
Proof.
  intros H. destruct op as [st en nm md an ht sid | nm | sid md an ht |]; cbn [perform].
  - rewrite (proj1 (chain_after_bind_return _ _)). apply log_lock_discipline, H.
  - rewrite (proj1 (chain_after_bind_return _ _)). unfold log_start.
    pose proof (log_lock_discipline (PyFloat (time_time (tick w))) PyNone nm
                  PyNone PyNone PyNone None c (next_tick w) H) as H'.
    destruct (log _ _ _ _ _ _ _ _ _); exact H'.
  - rewrite (proj1 (chain_after_bind_return _ _)). unfold log_end.
    destruct (in_progress c !! sid) as [span |]; [| exact H].
    apply log_lock_discipline. exact H.
  - rewrite (proj1 (chain_after_bind_return _ _)). apply flush_lock_discipline, H.
Qed.

Lemma perform_all_lock_discipline ops c w :
  lock_discipline c → lock_discipline (chain_after (perform_all ops c w)).
Proof.
  revert c w. induction ops as [| op ops IH]; intros c w H; [exact H |].
  cbn [perform_all].
  pose proof (perform_lock_discipline op c w H) as H'.
  destruct (perform op c w) as [a c' w' | e c' w' | c' w']; cbn [chain_after] in *.
  - apply IH, H'.
  - apply IH, H'.
  - exact H'.
Qed.

(** Whatever is done with a chain after its construction, it does not hold
    its flush lock between calls while it is in mock mode. *)
Lemma mock_chain_lock_free b p sub t m ue w0 ops :
  let c0 := (__init__ b p sub t m ue w0).1 in
  let w1 := (__init__ b p sub t m ue w0).2 in
  lock_discipline (chain_after (perform_all ops c0 w1)).
Proof.
  intros c0 w1. apply perform_all_lock_discipline.
  intros _. subst c0. apply init_fields.
Qed.

Lemma perform_buffer_bounded op c w :
  (1 ≤ backlog c)%Z → buffer_bounded c → came_back (perform op c w) = true →
  buffer_bounded (chain_after (perform op c w))
  ∧ backlog (chain_after (perform op c w)) = backlog c.
Proof.
  intros Hb H.
  destruct op as [st en nm md an ht sid | nm | sid md an ht |]; cbn [perform];
    rewrite (proj1 (chain_after_bind_return _ _)),
            (proj2 (chain_after_bind_return _ _)); intros Hcb.
  - split; [apply log_buffer_bounded; assumption | apply log_frame].
  - unfold log_start in *.
    pose proof (log_buffer_bounded (PyFloat (time_time (tick w))) PyNone nm
                  PyNone PyNone PyNone None c (next_tick w) Hb H) as H'.
    pose proof (log_frame (PyFloat (time_time (tick w))) PyNone nm
                  PyNone PyNone PyNone None c (next_tick w)) as ((_ & Hbk & _) & _).
    cbv zeta in H'.
    destruct (log _ _ _ _ _ _ _ _ _); cbn [bind came_back chain_after] in *;
      try discriminate; split; try apply H'; try reflexivity; exact Hbk.
  - unfold log_end in *.
    destruct (in_progress c !! sid) as [span |]; [| split; [exact H | reflexivity]].
    split.
    + apply log_buffer_bounded; assumption.
    + apply (log_frame (span_start_time span) (PyFloat (time_time (tick w)))
               (span_name span) md an ht (Some sid)
               (set_in_progress c (delete sid (in_progress c))) (next_tick w)).
  - split; [apply flush_buffer_bounded; assumption |].
    destruct (flush_cases c w)
      as [[_ E] | [(_ & w' & E & _) | (_ & _ & _ & msg & w' & E & _)]];
      rewrite E; reflexivity.
Qed.

Lemma perform_all_buffer_bounded ops c w :
  (1 ≤ backlog c)%Z → buffer_bounded c → came_back (perform_all ops c w) = true →
  buffer_bounded (chain_after (perform_all ops c w))
  ∧ backlog (chain_after (perform_all ops c w)) = backlog c.
Proof.
  revert c w. induction ops as [| op ops IH]; intros c w Hb H Hcb; [split; done |].
  cbn [perform_all] in *.
  pose proof (perform_buffer_bounded op c w Hb H) as H'.
  destruct (perform op c w) as [a c' w' | e c' w' | c' w'];
    cbn [chain_after came_back] in *; try discriminate;
    destruct (H' eq_refl) as [Hbb Hbk];
    destruct (IH c' w' ltac:(lia) Hbb Hcb) as [IH1 IH2];
    (split; [exact IH1 | congruence]).
Qed.

(** With a free lock and a sink that answers, [log] returns. *)
Lemma log_total start_time end_time name metadata annotations http segment_id c w :
  is_text name = true → flush_lock c = false → sink_never_raises w →
  ∃ c' w',
    log start_time end_time name metadata annotations http segment_id c w
    = Return (chosen_id segment_id c w).1 c' w'
    ∧ flush_lock c' = false ∧ in_progress c' = in_progress c
    ∧ backlog c' = backlog c
    ∧ last_segment_id c' = Some (chosen_id segment_id c w).1
    ∧ same_process w w'
    ∧ length (segments c')
      = if (Z.of_nat (S (length (segments c))) <? backlog c)%Z
        then S (length (segments c)) else 0%nat.
Proof.
  intros Ht Hl Hs.
  pose proof (chosen_id_same_process segment_id c w) as Hp.
  rewrite log_accepts by exact Ht. cbv zeta.
  rewrite buffered_length.
  destruct (Z.ltb_spec (Z.of_nat (S (length (segments c)))) (backlog c)) as [Hlt | Hge].
  - destruct (Z.geb_spec (Z.of_nat (S (length (segments c)))) (backlog c)); [lia |].
    eexists _, _. split; [reflexivity |].
    repeat split; try assumption; try apply Hp. apply buffered_length.
  - destruct (Z.geb_spec (Z.of_nat (S (length (segments c)))) (backlog c)); [| lia].
    destruct (flush_total (buffered c (chosen_id segment_id c w).1
                 (json_dumps (segment_dict c start_time end_time name metadata
                    annotations http (chosen_id segment_id c w).1)))
                (chosen_id segment_id c w).2 Hl
                (sink_never_raises_same _ _ Hp Hs))
      as (w' & E & Hp' & _).
    rewrite E. cbn [bind]. eexists _, _. split; [reflexivity |].
    repeat split; try assumption;
      try (destruct Hp, Hp'; congruence).
Qed.

(** What is known when [log] has returned. *)
Lemma log_returns_inv start_time end_time name metadata annotations http
    segment_id c w id c' w' :
  log start_time end_time name metadata annotations http segment_id c w
  = Return id c' w' →
  let c2 := buffered c id
              (json_dumps (segment_dict c start_time end_time name
                             metadata annotations http id)) in
  is_text name = true ∧ id = (chosen_id segment_id c w).1
  ∧ (((Z.of_nat (S (length (segments c))) < backlog c)%Z ∧ c' = c2)
     ∨ ((backlog c ≤ Z.of_nat (S (length (segments c))))%Z
        ∧ flush_lock c = false ∧ c' = set_segments c2 [])).
Proof.
  intros E. destruct (is_text name) eqn:Ht.
  - pose proof (log_cases start_time end_time name metadata annotations http
                  segment_id c w Ht) as H.
    cbv zeta in H. rewrite buffered_length in H.
    destruct H
      as [[Hs E'] | [Hs [[_ E'] | [(Hl & w'' & E' & _) | (Hl & _ & msg & w'' & E' & _)]]]];
      rewrite E' in E; inversion E; subst; clear E; cbv zeta.
    + split; [reflexivity |]. split; [reflexivity |]. left. split; [exact Hs | reflexivity].
    + split; [reflexivity |]. split; [reflexivity |]. right.
      split; [exact Hs |]. split; [exact Hl | reflexivity].
  - rewrite log_rejects in E by exact Ht. discriminate.
Qed.

Lemma shifted_lengths (n b len' k : nat) :
  len' = ((n + 1) mod b)%nat →
  map (λ i, (len' + i) mod b)%nat (seq 1 k) = map (λ i, (n + i) mod b)%nat (seq 2 k).
Proof.
  intros ->. rewrite <- (seq_shift k 1), map_map. apply map_ext. intros i.
  rewrite Nat.Div0.add_mod_idemp_l. f_equal. lia.
Qed.

(** A run of record calls: the buffer length advances by one and falls
    back to 0 at the call that fills the backlog. *)
Lemma record_calls_lengths ops c w :
  (1 ≤ backlog c)%Z → flush_lock c = false →
  (Z.of_nat (length (segments c)) < backlog c)%Z → sink_never_raises w →
  forallb is_record_call ops = true →
  buffer_lengths ops c w
  = map (λ i, (length (segments c) + i) mod Z.to_nat (backlog c)) (seq 1 (length ops)).
Proof.
  revert c w. induction ops as [| op ops IH]; intros c w Hb Hl Hlt Hs Hops;
    [reflexivity |].
  cbn [forallb] in Hops. apply andb_prop in Hops as [Hop Hops].
  destruct op as [st en nm md an ht sid | | |]; try discriminate.
  cbn [is_record_call] in Hop. cbn [buffer_lengths perform].
  destruct (log_total st en nm md an ht sid c w Hop Hl Hs)
    as (c' & w' & E & Hl' & _ & Hbk & _ & Hp & Hlen).
  rewrite E. cbn [bind length seq map].
  assert (Hstep : length (segments c')
                  = (length (segments c) + 1) mod Z.to_nat (backlog c)).
  { rewrite Hlen.
    destruct (Z.ltb_spec (Z.of_nat (S (length (segments c)))) (backlog c)).
    - rewrite Nat.mod_small; lia.
    - replace (length (segments c) + 1) with (Z.to_nat (backlog c)) by lia.
      rewrite Nat.Div0.mod_same. reflexivity. }
  assert (Hlt' : (Z.of_nat (length (segments c')) < backlog c')%Z).
  { rewrite Hstep, Hbk.
    pose proof (Nat.mod_upper_bound (length (segments c) + 1) (Z.to_nat (backlog c))).
    lia. }
  f_equal; [exact Hstep |].
  rewrite IH; try assumption; [| lia | eapply sink_never_raises_same; eassumption].
  rewrite <- (seq_shift (length ops) 1), map_map. apply map_ext. intros i.
  rewrite Hstep, Hbk, Nat.Div0.add_mod_idemp_l. f_equal. lia.
Qed.

(** The same run whatever the sink and the lock do: what the caller sees,
    up to the first call that does not return, is an initial part of that
    sequence. *)
Lemma record_calls_lengths_prefix ops c w :
  (1 ≤ backlog c)%Z → buffer_bounded c →
  forallb is_record_call ops = true →
  buffer_lengths ops c w
  `prefix_of` map (λ i, (length (segments c) + i) mod Z.to_nat (backlog c))
                  (seq 1 (length ops)).
Proof.
  revert c w. induction ops as [| op ops IH]; intros c w Hb [Hle Hlt] Hops;
    [apply prefix_nil |].
  cbn [forallb] in Hops. apply andb_prop in Hops as [Hop Hops].
  destruct op as [st en nm md an ht sid | | |]; try discriminate.
  cbn [is_record_call] in Hop. cbn [buffer_lengths perform].
  pose proof (log_cases st en nm md an ht sid c w Hop) as H. cbv zeta in H.
  pose proof (buffered_length c (chosen_id sid c w).1
                (json_dumps (segment_dict c st en nm md an ht (chosen_id sid c w).1)))
    as Hlen.
  set (c2 := buffered _ _ _) in *.
  assert (Hb2 : backlog c2 = backlog c) by reflexivity.
  assert (Hl2 : flush_lock c2 = flush_lock c) by reflexivity.
  clearbody c2.
  destruct H
    as [[Hs E] | [Hs [[_ E] | [(Hl & w' & E & _) | (Hl & _ & msg & w' & E & _)]]]];
    rewrite E; cbn [bind]; try apply prefix_nil.
  - assert (Hstep : length (segments c2)
                    = (length (segments c) + 1) mod Z.to_nat (backlog c))
      by (rewrite Nat.mod_small; lia).
    cbn [length seq map]. rewrite <- Hstep. apply prefix_cons.
    rewrite <- (shifted_lengths _ _ _ _ Hstep), <- Hb2.
    apply IH; [lia | | exact Hops].
    split; [lia | intros _; lia].
  - specialize (Hlt Hl).
    assert (Hstep : length (segments (set_segments c2 []))
                    = (length (segments c) + 1) mod Z.to_nat (backlog c)).
    { replace (length (segments c) + 1)%nat with (Z.to_nat (backlog c)) by lia.
      rewrite Nat.Div0.mod_same. reflexivity. }
    cbn [length seq map]. rewrite <- Hstep. apply prefix_cons.
    rewrite <- (shifted_lengths _ _ _ _ Hstep), <- Hb2.
    change (backlog c2) with (backlog (set_segments c2 [])).
    apply IH; [cbn; lia | | exact Hops].
    split; cbn; [lia | intros _; lia].
Qed.

(** *** The backlog (C4) *)

(** *** Open spans (C7) *)

Lemma log_end_unknown segment_id metadata annotations http c w :
  in_progress c !! segment_id = None →
  log_end segment_id metadata annotations http c w = Raise (KeyError segment_id) c w.
Proof. intros H. unfold log_end. rewrite H. reflexivity. Qed.

(** However a close ends, the id is no longer in the table. *)
Lemma log_end_removes segment_id metadata annotations http c w :
  in_progress (chain_after (log_end segment_id metadata annotations http c w))
    !! segment_id = None.
Proof.
  unfold log_end. destruct (in_progress c !! segment_id) as [span |] eqn:E.
  - rewrite (proj1 (proj2 (log_frame _ _ _ _ _ _ _ _ _))).
    cbn [set_in_progress in_progress]. apply lookup_delete_eq.
  - exact E.
Qed.

Lemma log_start_opens name c w :
  is_text name = true → flush_lock c = false → sink_never_raises w →
  ∃ id c1 w1, log_start name c w = Return id c1 w1
              ∧ in_progress c1 !! id
                = Some (mkSpan (PyFloat (time_time (tick w))) name)
              ∧ flush_lock c1 = false ∧ same_process w w1.
Proof.
  intros Ht Hl Hs. unfold log_start.
  destruct (log_total (PyFloat (time_time (tick w))) PyNone name PyNone PyNone PyNone
              None c (next_tick w) Ht Hl Hs)
    as (c' & w' & E & Hl' & _ & _ & _ & Hp & _).
  rewrite E. cbn [bind]. eexists _, _, _. split; [reflexivity |].
  split; [apply lookup_insert_eq |]. split; [exact Hl' | exact Hp].
Qed.

(** *** What a successful flush leaves alone (C10) *)

Lemma flush_returns_inv c w n c' w' :
  flush c w = Return n c' w' →
  c' = set_segments c [] ∧ n = length (segments c) ∧ flush_lock c = false.
Proof.
  intros E.
  destruct (flush_cases c w)
    as [[_ E'] | [(Hl & w'' & E' & _) | (_ & _ & _ & msg & w'' & E' & _)]];
    rewrite E' in E; inversion E; subst. repeat split. exact Hl.
Qed.

(** C10: a [flush] that returns has changed the buffer only; the trace id,
    parent id, [last_segment_id], backlog, subsegment flag, key, mock flag,
    open-span table and lock are as before.  So when a [log] has returned
    after its automatic flush, the buffer is empty, a fork without parent
    argument reports under the id that this [log] returned, and every span
    that was open is still in the table, where [log_end] finds it. *)
Theorem flush_changes_only_the_buffer :
  (∀ c w n c' w',
     flush c w = Return n c' w' →
     c' = set_segments c []
     ∧ trace_id c' = trace_id c ∧ parent_id c' = parent_id c
     ∧ last_segment_id c' = last_segment_id c ∧ backlog c' = backlog c
     ∧ subsegment c' = subsegment c ∧ trace_id_key c' = trace_id_key c
     ∧ mock c' = mock c ∧ in_progress c' = in_progress c
     ∧ flush_lock c' = flush_lock c)
  ∧ (∀ start_time end_time name metadata annotations http segment_id c w id c' w',
       log start_time end_time name metadata annotations http segment_id c w
       = Return id c' w' →
       (backlog c ≤ Z.of_nat (S (length (segments c))))%Z →
       segments c' = [] ∧ last_segment_id c' = Some id
       ∧ (∀ w2, ∃ child w3, fork_root None c' w2 = inr (child, w3)
                            ∧ parent_id child = Some id)
       ∧ (∀ w2, ∃ child w3, fork_subsegment None c' w2 = inr (child, w3)
                            ∧ parent_id child = Some id)
       ∧ (∀ sid span md an ht w2,
            in_progress c !! sid = Some span →
            log_end sid md an ht c' w2
            = log (span_start_time span) (PyFloat (time_time (tick w2)))
                  (span_name span) md an ht (Some sid)
                  (set_in_progress c' (delete sid (in_progress c'))) (next_tick w2))).
Proof.
  split.
  - intros c w n c' w' E.
    destruct (flush_returns_inv c w n c' w' E) as (-> & _ & Hl).
    repeat split.
  - intros st en nm md0 an0 ht0 sid0 c w id c' w' E Hat.
    destruct (log_returns_inv _ _ _ _ _ _ _ _ _ _ _ _ E)
      as (_ & _ & [[Hlt _] | (_ & _ & ->)]); [lia |].
    split; [reflexivity |]. split; [reflexivity |].
    split; [| split].
    + intros w2.
      destruct (fork_child false None
                  (set_segments (buffered c id
                     (json_dumps (segment_dict c st en nm md0 an0 ht0 id))) []) w2)
        as (child & w3 & Ef & Hp & _); [left; reflexivity |].
      exists child, w3. split; [exact Ef | exact Hp].
    + intros w2.
      destruct (fork_child true None
                  (set_segments (buffered c id
                     (json_dumps (segment_dict c st en nm md0 an0 ht0 id))) []) w2)
        as (child & w3 & Ef & Hp & _); [right; cbn; eauto |].
      exists child, w3. split; [exact Ef | exact Hp].
    + intros sid span md an ht w2 Hin. unfold log_end.
      cbn [set_segments buffered set_last_segment_id in_progress].
      rewrite Hin. reflexivity.
Qed.

(** *** The propagation string (C5, C6) *)

Lemma split_on_length sep s : length (split_on sep s) = S (count_char sep s).
Proof.
  induction s as [| c s IH]; [reflexivity |]. cbn [split_on count_char].
  destruct (Ascii.eqb c sep).
  - cbn. rewrite IH. reflexivity.
  - destruct (split_on sep s); cbn in *; lia.
Qed.

Lemma split_on_head sep s : ∃ rest, split_on sep s = before_char sep s :: rest.
Proof.
  induction s as [| c s [rest IH]]; [exists []; reflexivity |].
  cbn [split_on before_char]. destruct (Ascii.eqb c sep); [eauto |].
  rewrite IH. eauto.
Qed.

Lemma split_on_plain sep s : count_char sep s = 0%nat → split_on sep s = [s].
Proof.
  induction s as [| c s IH]; [reflexivity |]. cbn [split_on count_char].
  destruct (Ascii.eqb c sep); [discriminate |]. intros H. rewrite IH by exact H.
  reflexivity.
Qed.

Lemma split_on_app sep a b :
  count_char sep a = 0%nat →
  split_on sep (a +:+ String sep b) = a :: split_on sep b.
Proof.
  induction a as [| c a IH]; simpl.
  - rewrite Ascii.eqb_refl. reflexivity.
  - destruct (Ascii.eqb c sep); [discriminate |]. intros H. rewrite IH by exact H.
    reflexivity.
Qed.

Lemma py_dict_bad_item items acc :
  Exists (λ item, length item ≠ 2%nat) items → py_dict items acc = None.
Proof.
  intros H. revert acc. induction H as [item items Hbad | item items _ IH]; intros acc.
  - destruct item as [| k [| v [| x item]]]; cbn in *; try reflexivity. lia.
  - destruct item as [| k [| v [| x item]]]; cbn; try reflexivity. apply IH.
Qed.

Lemma py_dict_keys items acc d k :
  py_dict items acc = Some d →
  (is_Some (d !! k) ↔ is_Some (acc !! k) ∨ In k (map (hd "") items)).
Proof.
  revert acc. induction items as [| item items IH]; intros acc E.
  - cbn in *. inversion E; subst. tauto.
  - destruct item as [| k' [| v [| x item]]]; cbn in E; try discriminate.
    rewrite (IH _ E). cbn [map hd In]. rewrite lookup_insert_is_Some.
    destruct (decide (k' = k)); tauto.
Qed.

Lemma py_dict_well_shaped items acc :
  Forall (λ item, length item = 2%nat) items → is_Some (py_dict items acc).
Proof.
  intros H. revert acc. induction H as [| item items Hitem _ IH]; intros acc.
  - cbn. eauto.
  - destruct item as [| k [| v [| x item]]]; cbn in *; try lia. apply IH.
Qed.

Lemma header_keys_split s :
  map (hd "") (map (split_on "=") (split_on ";" s)) = header_keys s.
Proof.
  unfold header_keys. rewrite map_map. apply map_ext. intros piece.
  destruct (split_on_head "=" piece) as [rest ->]. reflexivity.
Qed.

Lemma has_key_In key s : has_key key s = true ↔ In key (header_keys s).
Proof.
  unfold has_key. rewrite existsb_exists. split.
  - intros (x & Hin & Heq). apply String.eqb_eq in Heq. congruence.
  - intros Hin. exists key. split; [exact Hin | apply String.eqb_refl].
Qed.

Lemma bad_pieces_items pieces :
  forallb key_value_shaped pieces = false ↔
  Exists (λ item, length item ≠ 2%nat) (map (split_on "=") pieces).
Proof.
  induction pieces as [| piece pieces IH]; cbn [forallb map].
  - split; [discriminate | intros H; inversion H].
  - rewrite Exists_cons, <- IH, andb_false_iff, split_on_length.
    unfold key_value_shaped. rewrite Nat.eqb_neq. split; intros [H | H]; auto with lia.
Qed.

Lemma bad_separators_items s :
  bad_separators s = true ↔
  Exists (λ item, length item ≠ 2%nat) (map (split_on "=") (split_on ";" s)).
Proof.
  unfold bad_separators. rewrite negb_true_iff. apply bad_pieces_items.
Qed.

Lemma plain_value_counts s :
  plain_value s = true → count_char ";" s = 0%nat ∧ count_char "=" s = 0%nat.
Proof.
  unfold plain_value. rewrite andb_true_iff, !Nat.eqb_eq. tauto.
Qed.

Lemma trace_header_pieces r pa s :
  plain_value r = true → plain_value pa = true → plain_value s = true →
  map (split_on "=") (split_on ";" (trace_header r pa s))
  = [["Root"; r]; ["Parent"; pa]; ["Sampled"; s]].
Proof.
  intros [Hr1 Hr2]%plain_value_counts [Hp1 Hp2]%plain_value_counts
         [Hs1 Hs2]%plain_value_counts.
  change (trace_header r pa s)
    with (("Root=" +:+ r) +:+ String ";" (("Parent=" +:+ pa)
            +:+ String ";" ("Sampled=" +:+ s))).
  rewrite !split_on_app, split_on_plain by (simpl; assumption).
  cbn [map].
  change ("Root=" +:+ r) with ("Root" +:+ String "=" r).
  change ("Parent=" +:+ pa) with ("Parent" +:+ String "=" pa).
  change ("Sampled=" +:+ s) with ("Sampled" +:+ String "=" s).
  rewrite !split_on_app by reflexivity.
  rewrite !split_on_plain by assumption. reflexivity.
Qed.

Lemma parse_trace_header_well_formed r pa s :
  plain_value r = true → plain_value pa = true → plain_value s = true →
  parse_trace_header (trace_header r pa s) = Some (r, pa, s).
Proof.
  intros Hr Hp Hs. unfold parse_trace_header.
  rewrite trace_header_pieces by assumption. reflexivity.
Qed.

Lemma parse_trace_header_malformed s :
  malformed_header s = true → parse_trace_header s = None.
Proof.
  unfold malformed_header, parse_trace_header. intros H.
  destruct (py_dict (map (split_on "=") (split_on ";" s)) ∅) as [d |] eqn:E;
    [| reflexivity].
  apply orb_true_iff in H as [H | H].
  - apply bad_separators_items in H.
    rewrite (py_dict_bad_item _ _ H) in E. discriminate.
  - assert (Hkey : ∀ key, has_key key s = false → d !! key = None).
    { intros key Hk. apply eq_None_not_Some. intros Hsome.
      apply (py_dict_keys _ _ _ key E) in Hsome as [Hsome | Hin].
      - rewrite lookup_empty in Hsome. destruct Hsome; discriminate.
      - rewrite header_keys_split in Hin. apply has_key_In in Hin. congruence. }
    unfold missing_keys in H. rewrite negb_true_iff, !andb_false_iff in H.
    cbn [mbind option_bind].
    destruct H as [[H | H] | H]; apply Hkey in H;
      destruct (d !! "Root"); cbn [mbind option_bind]; try reflexivity;
      destruct (d !! "Parent"); cbn [mbind option_bind]; try reflexivity;
      destruct (d !! "Sampled"); cbn [mbind option_bind]; try reflexivity;
      discriminate.
Qed.

(** The converse: a string that is not malformed is parsed. *)
Lemma parse_trace_header_not_malformed s :
  malformed_header s = false → is_Some (parse_trace_header s).
Proof.
  unfold malformed_header, parse_trace_header. intros H.
  apply orb_false_iff in H as [Hsep Hkeys].
  assert (Hshape : Forall (λ item, length item = 2%nat)
                     (map (split_on "=") (split_on ";" s))).
  { apply List.Forall_forall. intros item Hin.
    destruct (Nat.eq_dec (length item) 2) as [He | Hne]; [exact He |].
    assert (bad_separators s = true); [| congruence].
    apply bad_separators_items, List.Exists_exists. eauto. }
  destruct (py_dict_well_shaped _ ∅ Hshape) as [d E].
  rewrite E. cbn [mbind option_bind].
  unfold missing_keys in Hkeys. rewrite negb_false_iff, !andb_true_iff in Hkeys.
  destruct Hkeys as [[H1 H2] H3].
  assert (Hkey : ∀ key, has_key key s = true → is_Some (d !! key)).
  { intros key Hk. apply (py_dict_keys _ _ _ key E). right.
    rewrite header_keys_split. apply has_key_In, Hk. }
  destruct (Hkey _ H1) as [r ->], (Hkey _ H2) as [pa ->], (Hkey _ H3) as [sm ->].
  cbn. eauto.
Qed.

Lemma env_trace_params_malformed ue w s :
  environ w !! "_X_AMZN_TRACE_ID" = Some s → malformed_header s = true →
  env_trace_params ue w = None.
Proof.
  intros He Hm. unfold env_trace_params. rewrite He.
  destruct ue; [apply parse_trace_header_malformed, Hm | reflexivity].
Qed.

Lemma env_trace_params_unset ue w :
  env_trace_params ue (unset_env "_X_AMZN_TRACE_ID" w) = None.
Proof.
  unfold env_trace_params, unset_env. cbn [environ]. rewrite lookup_delete_eq.
  destruct ue; reflexivity.
Qed.

(** C5: the mock flag of a new chain is the [mock] argument when one is
    given; without it, when the propagation string was read and parsed, it
    is false exactly when [Sampled] is "1" and true for any other value;
    otherwise it is false.  A string of the form
    [Root=..;Parent=..;Sampled=..] is parsed into its three values. *)
Theorem mock_flag_resolution b p sub t m ue w :
  let c := (__init__ b p sub t m ue w).1 in
  (∀ x, m = Some x → mock c = x)
  ∧ (m = None →
     ∀ r pa s, env_trace_params ue w = Some (r, pa, s) →
               (mock c = false ↔ s = "1") ∧ (s ≠ "1" → mock c = true))
  ∧ (m = None → env_trace_params ue w = None → mock c = false)
  ∧ (∀ r pa s,
       ue = true → plain_value r = true → plain_value pa = true →
       plain_value s = true →
       environ w !! "_X_AMZN_TRACE_ID" = Some (trace_header r pa s) →
       env_trace_params ue w = Some (r, pa, s)).
Proof.
  intros c.
  pose proof (init_fields b p sub t m ue w) as (_ & _ & _ & _ & _ & _ & _ & _ & Hm & _).
  fold c in Hm. cbv zeta in Hm. split; [| split; [| split]].
  - intros x ->. exact Hm.
  - intros -> r pa s E. rewrite E in Hm. cbn [env_sampled] in Hm. rewrite Hm.
    destruct (String.eqb_spec s "1") as [Heq | Hne]; cbn [negb].
    + split; [tauto | congruence].
    + split; [split; [discriminate | contradiction] | reflexivity].
  - intros -> E. rewrite E in Hm. exact Hm.
  - intros r pa s -> Hr Hp Hs He. unfold env_trace_params. rewrite He.
    apply parse_trace_header_well_formed; assumption.
Qed.

(** C6: when the propagation string is malformed (a piece that is not
    [Key=Value], or a required key missing), the constructor builds the
    chain that it builds when the variable is not set: the parent id is
    the argument, the mock flag is the argument or false, the trace id is
    the argument or a generated one.  The constructor is a total
    function: nothing is raised. *)
Theorem malformed_header_as_absent b p sub t m ue w s :
  environ w !! "_X_AMZN_TRACE_ID" = Some s → malformed_header s = true →
  let c := (__init__ b p sub t m ue w).1 in
  c = (__init__ b p sub t m ue (unset_env "_X_AMZN_TRACE_ID" w)).1
  ∧ parent_id c = p ∧ mock c = default false m
  ∧ trace_id c = match t with
                 | Some x => x
                 | None => (fresh_trace_id (os_urandom16 (tick w)) (next_tick w)).1
                 end.
Proof.
  intros He Hm c.
  pose proof (env_trace_params_malformed ue w s He Hm) as Hnone.
  split.
  - subst c. unfold __init__.
    rewrite !env_trace_params_next_tick, Hnone, env_trace_params_unset.
    destruct t; reflexivity.
  - pose proof (init_fields b p sub t m ue w)
      as (_ & _ & _ & _ & _ & _ & _ & Hp & Hmk & Ht).
    fold c in Hp, Hmk, Ht. cbv zeta in *. rewrite Hnone in *.
    cbn [env_parent_id env_sampled env_trace_id] in *.
    split; [destruct p; exact Hp |]. split; [destruct m; exact Hmk | exact Ht].
Qed.

(** ** Further properties of the code *)

(** *** What one call does to the chain and to the world *)

Ltac flush_leaf :=
  cbn; repeat split; auto; try discriminate;
  try (intros [? | ?]; discriminate);
  try (right; repeat split; eauto; discriminate).

Lemma flush_effects c w :
  let c' := chain_after (flush c w) in
  let w' := world_after (flush c w) in
  same_identity c c' ∧ same_process w w' ∧ tick w' = tick w
  ∧ in_progress c' = in_progress c ∧ last_segment_id c' = last_segment_id c
  ∧ (echo_enabled w = false → stderr w' = stderr w)
  ∧ (offline c w → sink_calls w' = sink_calls w)
  ∧ (sink_calls w' = sink_calls w
     ∨ (sink_calls w' = sink_calls w ++ [segments c] ∧ segments c ≠ []
        ∧ mock c = false ∧ flush_lock c = false ∧ is_Some (client w)))
  ∧ (flush_lock c = true → flush_lock c' = true).
Proof.
  unfold flush, flush_finish, offline, echo_enabled.
  destruct (flush_lock c) eqn:Hl; [flush_leaf |].
  change (segments (set_flush_lock c true)) with (segments c).
  change (mock (set_flush_lock c true)) with (mock c).
  destruct (segments c) as [| s l] eqn:Hs; [flush_leaf |].
  cbn [length Nat.eqb].
  destruct (client w) as [put |] eqn:Hc;
    [| cbn [client environ sink_calls write_stderr record_sink_call];
       rewrite ?Hc; flush_leaf].
  destruct (negb _) eqn:Hb;
    cbn [client environ sink_calls write_stderr record_sink_call];
    rewrite ?Hc, ?Hb; destruct (mock c) eqn:Hm;
    try destruct (put (sink_calls w) (s :: l)) as [resp | msg];
    cbn [client environ sink_calls write_stderr record_sink_call];
    rewrite ?Hc, ?Hb; flush_leaf.
Qed.


Lemma same_identity_refl c : same_identity c c.
Proof. repeat split. Qed.

Lemma same_identity_trans c1 c2 c3 :
  same_identity c1 c2 → same_identity c2 c3 → same_identity c1 c3.
Proof.
  intros (? & ? & ? & ? & ? & ?) (? & ? & ? & ? & ? & ?). repeat split; congruence.
Qed.

Lemma call_frame_refl c w : call_frame (echo_enabled w) c w c w.
Proof.
  split; [apply same_identity_refl |]. split; [apply same_process_refl |]. auto.
Qed.

Lemma call_frame_trans c1 w1 c2 w2 c3 w3 :
  call_frame (echo_enabled w1) c1 w1 c2 w2 →
  call_frame (echo_enabled w2) c2 w2 c3 w3 →
  call_frame (echo_enabled w1) c1 w1 c3 w3.
Proof.
  intros (Hi & Hp & He & Ho & Hl) (Hi' & Hp' & He' & Ho' & Hl').
  rewrite (echo_enabled_same _ _ Hp) in He'.
  split; [eapply same_identity_trans; eassumption |].
  split; [eapply same_process_trans; eassumption |].
  split; [intros H; rewrite He', He by exact H; reflexivity |].
  split; [| auto].
  intros Hoff. rewrite Ho', Ho; [reflexivity | exact Hoff |].
  destruct Hi as (_ & _ & _ & _ & Hm & _), Hp as [_ Hc].
  unfold offline in *. rewrite Hm, Hc. exact Hoff.
Qed.

Lemma flush_call_frame c w :
  call_frame (echo_enabled w) c w (chain_after (flush c w)) (world_after (flush c w)).
Proof.
  pose proof (flush_effects c w) as (Hi & Hp & _ & _ & _ & He & Ho & _ & Hl).
  repeat split; try apply Hi; try apply Hp; assumption.
Qed.

Lemma after_bind_return {A B : Type} (m : outcome A) (f : A → B) :
  world_after (bind m (λ a c w, Return (f a) c w)) = world_after m.
Proof. destruct m; reflexivity. Qed.

Lemma log_call_frame start_time end_time name metadata annotations http segment_id c w :
  let r := log start_time end_time name metadata annotations http segment_id c w in
  call_frame (echo_enabled w) c w (chain_after r) (world_after r).
Proof.
  intros r. subst r. destruct (is_text name) eqn:Ht;
    [| rewrite log_rejects by exact Ht; apply call_frame_refl].
  rewrite log_accepts by exact Ht. cbv zeta.
  pose proof (chosen_id_same_process segment_id c w) as Hp.
  assert (Hw : stderr (chosen_id segment_id c w).2 = stderr w
               ∧ sink_calls (chosen_id segment_id c w).2 = sink_calls w)
    by (unfold chosen_id; destruct (truthy_id segment_id); split; reflexivity).
  destruct Hw as [Hst Hsc].
  set (c2 := buffered _ _ _). set (w1 := (chosen_id segment_id c w).2) in *.
  assert (Hstep : call_frame (echo_enabled w) c w c2 w1).
  { split; [repeat split |]. split; [exact Hp |]. repeat split; auto. }
  destruct (Z.of_nat (length (segments c2)) >=? backlog c)%Z; [| exact Hstep].
  rewrite (proj1 (chain_after_bind_return _ _)), after_bind_return.
  eapply call_frame_trans; [exact Hstep | apply flush_call_frame].
Qed.

Lemma perform_call_frame op c w :
  call_frame (echo_enabled w) c w (chain_after (perform op c w))
    (world_after (perform op c w)).
Proof.
  destruct op as [st en nm md an ht sid | nm | sid md an ht |]; cbn [perform];
    rewrite (proj1 (chain_after_bind_return _ _)), after_bind_return.
  - apply log_call_frame.
  - unfold log_start.
    pose proof (log_call_frame (PyFloat (time_time (tick w))) PyNone nm PyNone PyNone
                  PyNone None c (next_tick w)) as H.
    cbv zeta in H. change (echo_enabled (next_tick w)) with (echo_enabled w) in H.
    assert (H0 : call_frame (echo_enabled w) c w c (next_tick w))
      by (split; [repeat split |]; split; [split; reflexivity |]; repeat split; auto).
    destruct (log _ _ _ _ _ _ _ _ _) as [id c' w' | e c' w' | c' w'];
      cbn [bind chain_after world_after] in *;
      destruct H as (Hi & Hp & He & Ho & Hl);
      (split; [exact Hi |]; split; [destruct Hp; split; assumption |];
       split; [exact He |]; split; [exact Ho | exact Hl]).
  - unfold log_end. destruct (in_progress c !! sid) as [span |];
      [| apply call_frame_refl].
    pose proof (log_call_frame (span_start_time span) (PyFloat (time_time (tick w)))
                  (span_name span) md an ht (Some sid)
                  (set_in_progress c (delete sid (in_progress c))) (next_tick w)) as H.
    cbv zeta in H. exact H.
  - apply flush_call_frame.
Qed.

Lemma perform_all_call_frame ops c w :
  call_frame (echo_enabled w) c w (chain_after (perform_all ops c w))
    (world_after (perform_all ops c w)).
Proof.
  revert c w. induction ops as [| op ops IH]; intros c w; [apply call_frame_refl |].
  cbn [perform_all]. pose proof (perform_call_frame op c w) as H.
  destruct (perform op c w) as [a c' w' | e c' w' | c' w'];
    cbn [chain_after world_after] in *;
    try (eapply call_frame_trans; [exact H | apply IH]); exact H.
Qed.


(** *** What no sequence of calls does *)

(** X1: whatever calls are made on a chain, and however they end, the key,
    backlog, trace id, parent id, mock flag and subsegment flag of the chain
    are those it was constructed with, and the environment and the client of
    the process are untouched. *)
Theorem identity_fixed_at_construction ops c w :
  same_identity c (chain_after (perform_all ops c w))
  ∧ same_process w (world_after (perform_all ops c w)).
Proof.
  pose proof (perform_all_call_frame ops c w) as (Hi & Hp & _). split; assumption.
Qed.

(** X2: when [MOCK_XRAY] is in the environment at the time the class is
    loaded, whatever its value, there is no client, and then no sequence of
    calls hands anything to a sink or writes anything to [stderr]. *)
Theorem mock_xray_silences_the_process boto3_client ops c w :
  is_Some (environ w !! "MOCK_XRAY") →
  client w = class_client (environ w) boto3_client →
  sink_calls (world_after (perform_all ops c w)) = sink_calls w
  ∧ stderr (world_after (perform_all ops c w)) = stderr w.
Proof.
  intros [v Hv] Hc. unfold class_client in Hc. rewrite Hv in Hc.
  pose proof (perform_all_call_frame ops c w) as (_ & _ & He & Ho & _).
  split; [apply Ho; right; exact Hc |].
  apply He. unfold echo_enabled. rewrite Hc. reflexivity.
Qed.

(** X3: with [SQUELCH_XRAY] set to exactly ["TRUE"], no sequence of calls
    writes to [stderr]. *)
Theorem squelch_xray_stops_the_echo ops c w :
  environ w !! "SQUELCH_XRAY" = Some "TRUE" →
  stderr (world_after (perform_all ops c w)) = stderr w.
Proof.
  intros H. pose proof (perform_all_call_frame ops c w) as (_ & _ & He & _).
  apply He. unfold echo_enabled. rewrite H. destruct (client w); reflexivity.
Qed.

(** X4: a chain in mock mode never hands a batch to the sink, whatever
    calls are made on it. *)
Theorem mock_chain_never_submits ops c w :
  mock c = true →
  sink_calls (world_after (perform_all ops c w)) = sink_calls w.
Proof.
  intros H. pose proof (perform_all_call_frame ops c w) as (_ & _ & _ & Ho & _).
  apply Ho. left. exact H.
Qed.

(** X5: one [flush] calls the sink at most once, and then with the whole
    buffer in its order; it does so exactly when the lock is free, the
    buffer is not empty, the chain is not in mock mode and there is a
    client, whether the sink then answers or raises. *)
Theorem flush_submits_the_buffer_at_most_once c w :
  (sink_calls (world_after (flush c w)) = sink_calls w
   ∨ sink_calls (world_after (flush c w)) = sink_calls w ++ [segments c])
  ∧ (flush_lock c = false ∧ segments c ≠ [] ∧ mock c = false ∧ is_Some (client w)
     ↔ sink_calls (world_after (flush c w)) = sink_calls w ++ [segments c]).
Proof.
  pose proof (flush_effects c w) as (_ & _ & _ & _ & _ & _ & _ & [H | H] & _).
  - split; [left; exact H |]. split.
    + intros (Hl & Hne & Hm & [put Hc]). exfalso.
      destruct (put (sink_calls w) (segments c)) as [resp | msg] eqn:Hput.
      * destruct (flush_submitted c w put resp Hl Hm Hne Hc Hput) as (w' & E & _ & Hsc & _).
        rewrite E in H. cbn in H. rewrite Hsc in H.
        apply (f_equal length) in H. rewrite length_app in H. cbn in H. lia.
      * destruct (flush_sink_raises c w put msg Hl Hm Hne Hc Hput) as (w' & E & _ & Hsc & _).
        rewrite E in H. cbn in H. rewrite Hsc in H.
        apply (f_equal length) in H. rewrite length_app in H. cbn in H. lia.
    + intros H'. rewrite H in H'.
      apply (f_equal length) in H'. rewrite length_app in H'. cbn in H'. lia.
  - destruct H as (H & Hne & Hm & Hl & Hc).
    split; [right; exact H |]. split; [intros _; exact H | intros _; auto].
Qed.

(** X6: a [flush] that raises leaves the lock held, and nothing releases
    it: after any further calls the lock is still held, and every later
    [flush], the one of [__del__] included, waits for it and never
    returns. *)
Theorem failed_flush_blocks_every_later_flush c w e c' w' ops w2 :
  flush c w = Raise e c' w' →
  flush_lock (chain_after (perform_all ops c' w2)) = true
  ∧ (∀ w3, flush (chain_after (perform_all ops c' w2)) w3
           = Block (chain_after (perform_all ops c' w2)) w3)
  ∧ (∀ w3, __del__ (chain_after (perform_all ops c' w2)) w3
           = Block (chain_after (perform_all ops c' w2)) w3).
Proof.
  intros E.
  assert (Hl : flush_lock c' = true).
  { destruct (flush_cases c w)
      as [[_ E'] | [(_ & w'' & E' & _) | (_ & _ & _ & msg & w'' & E' & _)]];
      rewrite E' in E; inversion E; subst. reflexivity. }
  pose proof (perform_all_call_frame ops c' w2) as (_ & _ & _ & _ & Hheld).
  specialize (Hheld Hl). split; [exact Hheld |].
  split; intros w3; apply flush_locked, Hheld.
Qed.


(** *** Nothing is lost, nothing is sent twice *)

Lemma flush_emitted c w :
  live c w →
  ∃ w', flush c w = Return (length (segments c)) (set_segments c []) w'
        ∧ emitted (set_segments c []) w' = emitted c w
        ∧ live (set_segments c []) w'.
Proof.
  intros (Hm & [put Hc] & Hl & Hs).
  destruct (segments c) as [| s l] eqn:Hseg.
  - exists w. rewrite flush_empty by assumption.
    rewrite set_segments_nil_same by assumption.
    split; [reflexivity |]. split; [reflexivity |].
    repeat split; eauto.
  - destruct (Hs put Hc (sink_calls w) (segments c)) as [resp Hput].
    destruct (flush_submitted c w put resp Hl Hm ltac:(congruence) Hc Hput)
      as (w' & E & Hp & Hsc & _).
    rewrite Hseg in E. exists w'. split; [exact E |]. split.
    + unfold emitted. cbn [set_segments segments]. rewrite Hsc, concat_app, Hseg.
      cbn. rewrite !app_nil_r. reflexivity.
    + split; [exact Hm |]. split; [destruct Hp as [_ ->]; eauto |].
      split; [exact Hl | eapply sink_never_raises_same; eassumption].
Qed.

Lemma log_emitted start_time end_time name metadata annotations http segment_id c w :
  is_text name = true → live c w →
  let id := (chosen_id segment_id c w).1 in
  let doc := json_dumps (segment_dict c start_time end_time name
                           metadata annotations http id) in
  ∃ c' w',
    log start_time end_time name metadata annotations http segment_id c w
    = Return id c' w'
    ∧ emitted c' w' = emitted c w ++ [doc]
    ∧ live c' w' ∧ in_progress c' = in_progress c.
Proof.
  intros Ht Hlive id doc. destruct Hlive as (Hm & Hc & Hl & Hs).
  pose proof (chosen_id_same_process segment_id c w) as Hp.
  assert (Hsc : sink_calls (chosen_id segment_id c w).2 = sink_calls w)
    by (unfold chosen_id; destruct (truthy_id segment_id); reflexivity).
  assert (Hlive2 : live (buffered c id doc) (chosen_id segment_id c w).2).
  { split; [exact Hm |]. split; [destruct Hp as [_ ->]; exact Hc |].
    split; [exact Hl | eapply sink_never_raises_same; eassumption]. }
  assert (Hem : emitted (buffered c id doc) (chosen_id segment_id c w).2
                = emitted c w ++ [doc]).
  { unfold emitted. rewrite Hsc. cbn [buffered set_segments segments].
    rewrite app_assoc. reflexivity. }
  rewrite log_accepts by exact Ht. cbv zeta. fold id. fold doc.
  destruct (Z.of_nat (length (segments (buffered c id doc))) >=? backlog c)%Z.
  - destruct (flush_emitted _ _ Hlive2) as (w' & E & Hem' & Hlive').
    rewrite E. cbn [bind]. eexists _, _. split; [reflexivity |].
    split; [rewrite Hem'; exact Hem |]. split; [exact Hlive' | reflexivity].
  - eexists _, _. split; [reflexivity |].
    split; [exact Hem |]. split; [exact Hlive2 | reflexivity].
Qed.

Lemma perform_emitted op c w :
  live c w →
  let r := perform op c w in
  came_back r = true ∧ live (chain_after r) (world_after r)
  ∧ ∃ docs, emitted (chain_after r) (world_after r) = emitted c w ++ docs
            ∧ (length docs ≤ 1)%nat
            ∧ (is_record_call op = true → length docs = 1%nat).
Proof.
  intros Hlive r. subst r.
  assert (Htick : live c (next_tick w) ∧ emitted c (next_tick w) = emitted c w).
  { pose proof Hlive as (Hm & Hc & Hl & Hs). split; [| reflexivity].
    split; [exact Hm |]. split; [exact Hc |]. split; [exact Hl |].
    eapply sink_never_raises_same, Hs. split; reflexivity. }
  destruct Htick as [Hlive1 Hem1].
  destruct op as [st en nm md an ht sid | nm | sid md an ht |]; cbn [perform is_record_call].
  - destruct (is_text nm) eqn:Ht.
    + destruct (log_emitted st en nm md an ht sid c w Ht Hlive)
        as (c' & w' & E & Hem & Hlive' & _).
      rewrite E. cbn. split; [reflexivity |]. split; [exact Hlive' |].
      eexists. split; [exact Hem |]. cbn. split; [lia | reflexivity].
    + rewrite log_rejects by exact Ht. cbn. split; [reflexivity |].
      split; [exact Hlive |]. exists []. rewrite app_nil_r.
      split; [reflexivity |]. split; [cbn; lia | discriminate].
  - unfold log_start. destruct (is_text nm) eqn:Ht.
    + destruct (log_emitted (PyFloat (time_time (tick w))) PyNone nm PyNone PyNone PyNone
                  None c (next_tick w) Ht Hlive1)
        as (c' & w' & E & Hem & Hlive' & _).
      rewrite E. cbn. split; [reflexivity |]. split; [exact Hlive' |].
      eexists. split; [rewrite <- Hem1; exact Hem |]. cbn. split; [lia | discriminate].
    + rewrite log_rejects by exact Ht. cbn. split; [reflexivity |].
      split; [exact Hlive1 |]. exists []. rewrite app_nil_r.
      split; [exact Hem1 |]. split; [cbn; lia | discriminate].
  - unfold log_end. destruct (in_progress c !! sid) as [span |].
    + assert (Hlive2 : live (set_in_progress c (delete sid (in_progress c)))
                         (next_tick w)) by exact Hlive1.
      destruct (is_text (span_name span)) eqn:Ht.
      * destruct (log_emitted (span_start_time span) (PyFloat (time_time (tick w)))
                    (span_name span) md an ht (Some sid) _ _ Ht Hlive2)
          as (c' & w' & E & Hem & Hlive' & _).
        rewrite E. cbn. split; [reflexivity |]. split; [exact Hlive' |].
        eexists. split; [rewrite <- Hem1; exact Hem |]. cbn. split; [lia | discriminate].
      * rewrite log_rejects by exact Ht. cbn. split; [reflexivity |].
        split; [exact Hlive2 |]. exists []. rewrite app_nil_r.
        split; [exact Hem1 |]. split; [cbn; lia | discriminate].
    + cbn. split; [reflexivity |]. split; [exact Hlive |]. exists [].
      rewrite app_nil_r. split; [reflexivity |]. split; [cbn; lia | discriminate].
  - destruct (flush_emitted c w Hlive) as (w' & E & Hem & Hlive').
    rewrite E. cbn. split; [reflexivity |]. split; [exact Hlive' |]. exists [].
    rewrite app_nil_r. split; [exact Hem |]. split; [cbn; lia | discriminate].
Qed.

(** X7: on a chain that submits to a sink that answers (not mock, a client,
    free lock), every call comes back, and the serialized records are kept
    in order and exactly once: the batches handed to the sink followed by
    the buffer are, after any sequence of calls, what they were before
    followed by the records of that sequence, at most one per call and
    exactly one per accepted [log] call. *)
Theorem records_kept_in_order_exactly_once ops c w :
  live c w →
  came_back (perform_all ops c w) = true
  ∧ live (chain_after (perform_all ops c w)) (world_after (perform_all ops c w))
  ∧ ∃ docs,
      emitted (chain_after (perform_all ops c w)) (world_after (perform_all ops c w))
      = emitted c w ++ docs
      ∧ (length docs ≤ length ops)%nat
      ∧ (forallb is_record_call ops = true → length docs = length ops).
Proof.
  revert c w. induction ops as [| op ops IH]; intros c w Hlive.
  - cbn. split; [reflexivity |]. split; [exact Hlive |]. exists [].
    rewrite app_nil_r. repeat split. cbn. lia.
  - cbn [perform_all forallb length].
    destruct (perform_emitted op c w Hlive) as (Hcb & Hlive' & docs & Hem & Hlen & Hrec).
    destruct (perform op c w) as [a c' w' | e c' w' | c' w'];
      cbn [chain_after world_after came_back] in *; try discriminate;
      destruct (IH c' w' Hlive') as (Hcb' & Hlive'' & docs' & Hem' & Hlen' & Hrec');
      (split; [exact Hcb' |]; split; [exact Hlive'' |];
       exists (docs ++ docs'); rewrite Hem', Hem, app_assoc, length_app;
       split; [reflexivity |]; split; [lia |];
       intros [H1 H2]%andb_prop; specialize (Hrec H1); specialize (Hrec' H2); lia).
Qed.


(** *** The segment that [log] records *)

Lemma take_chars_length n s :
  String.length (take_chars n s) = Nat.min n (String.length s).
Proof.
  revert s. induction n as [| n IH]; intros [| ch s]; cbn; try reflexivity.
  rewrite IH. reflexivity.
Qed.

(** X8: for a name that is accepted, the id of the segment is the
    [segment_id] argument when that is a non-empty string, and otherwise the
    first 16 characters of the keyed digest of a fresh uuid (16 characters
    when the digest has that many, as a SHA-256 hex digest has).  However
    the call ends (also when the automatic flush raises or never returns),
    [last_segment_id] is that id; when the call returns, it returns it. *)
Theorem log_segment_id start_time end_time name metadata annotations http segment_id c w :
  is_text name = true →
  let r := log start_time end_time name metadata annotations http segment_id c w in
  let fresh := take_chars 16
                 (hmac_sha256_hexdigest (trace_id_key c) (uuid_uuid1 (tick w))) in
  let id := match segment_id with
            | Some s => if String.eqb s "" then fresh else s
            | None => fresh
            end in
  last_segment_id (chain_after r) = Some id
  ∧ (∀ a c' w', r = Return a c' w' → a = id)
  ∧ ((16 ≤ String.length
             (hmac_sha256_hexdigest (trace_id_key c) (uuid_uuid1 (tick w))))%nat →
     String.length fresh = 16%nat).
Proof.
  intros Ht r fresh id.
  assert (Hid : (chosen_id segment_id c w).1 = id).
  { unfold chosen_id, truthy_id, id. destruct segment_id as [s |]; [| reflexivity].
    destruct (String.eqb s ""); reflexivity. }
  split; [| split].
  - subst r.
    destruct (log_cases start_time end_time name metadata annotations http
                segment_id c w Ht)
      as [[_ E] | [_ [[_ E] | [(_ & w' & E & _) | (_ & _ & msg & w' & E & _)]]]];
      rewrite E; cbn; rewrite Hid; reflexivity.
  - intros a c' w' E. subst r.
    destruct (log_returns_inv _ _ _ _ _ _ _ _ _ _ _ _ E) as (_ & -> & _). exact Hid.
  - intros Hlen. subst fresh. rewrite take_chars_length. lia.
Qed.

Lemma opt_field_if key v :
  opt_field key v = if is_py_none v then [] else [(key, v)].
Proof. destruct v; reflexivity. Qed.

Lemma segment_dict_items c start_time end_time name metadata annotations http id :
  dict_items (segment_dict c start_time end_time name metadata annotations http id)
  = [("name", name); ("id", PyStr id); ("trace_id", PyStr (trace_id c));
     ("start_time", start_time)]
    ++ (if is_py_none end_time then [("in_progress", PyBool true)]
        else [("end_time", end_time)])
    ++ match parent_id c with
       | Some p => [("parent_id", PyStr p)]
       | None => []
       end
    ++ (if subsegment c then [("type", PyStr "subsegment")] else [])
    ++ (if is_py_none metadata then [] else [("metadata", metadata)])
    ++ (if is_py_none http then [] else [("http", http)])
    ++ (if is_py_none annotations then [] else [("annotations", annotations)]).
Proof.
  unfold segment_dict. cbn [dict_items]. rewrite !opt_field_if.
  destruct end_time; reflexivity.
Qed.

Ltac sublist_keys :=
  repeat first [apply sublist_nil | apply sublist_skip | apply sublist_cons].

(** *** Spans *)

Lemma log_last_segment_id start_time end_time name metadata annotations http
    segment_id c w :
  is_text name = true →
  last_segment_id
    (chain_after (log start_time end_time name metadata annotations http segment_id c w))
  = Some (chosen_id segment_id c w).1.
Proof.
  intros Ht.
  destruct (log_cases start_time end_time name metadata annotations http
              segment_id c w Ht)
    as [[_ E] | [_ [[_ E] | [(_ & w' & E & _) | (_ & _ & msg & w' & E & _)]]]];
    rewrite E; reflexivity.
Qed.

(** *** The decorators *)



(** *** Forked chains *)

Lemma init_world b p sub t m ue w x :
  t = Some x → (__init__ b p sub t m ue w).2 = next_tick w.
Proof. intros ->. reflexivity. Qed.

(** X14: the chain that a fork returns starts empty: no buffered segment,
    no last segment, no open span, a free lock and a key of its own, drawn
    from the random source; the fork reads nothing else from the streams.
    So until a segment is logged on it, a [fork_subsegment] from it raises
    the illegal-fork error whatever parent is given, its [flush] returns 0
    and every [log_end] on it raises the lookup error. *)
Theorem forked_chain_starts_empty sub p c w child w' :
  __fork sub p c w = inr (child, w') →
  segments child = [] ∧ last_segment_id child = None ∧ in_progress child = ∅
  ∧ flush_lock child = false
  ∧ trace_id_key child = os_urandom16 (tick w) ∧ w' = next_tick w
  ∧ (∀ p2 w2,
       fork_subsegment p2 child w2
       = inl (RuntimeError
                "Cannot create a subsegment fork() from a chain that has never emitted a segment"))
  ∧ (∀ w2, flush child w2 = Return 0%nat child w2)
  ∧ (∀ sid md an ht w2, log_end sid md an ht child w2 = Raise (KeyError sid) child w2).
Proof.
  unfold __fork. destruct (sub && is_none (last_segment_id c)); [discriminate |].
  intros E.
  set (pid := match p with Some x => Some x | None => last_segment_id c end) in E.
  pose proof (init_fields (backlog c) pid sub (Some (trace_id c)) (Some (mock c)) true w)
    as (_ & _ & Hseg & Hlast & Hin & Hl & Hk & _).
  pose proof (init_world (backlog c) pid sub (Some (trace_id c)) (Some (mock c)) true w
                (trace_id c) eq_refl) as Hw.
  cbv zeta in *.
  destruct (__init__ _ _ _ _ _ _ _) as [ch w1]. cbn [fst snd] in *.
  inversion E; subst ch w1. clear E.
  repeat (split; [assumption |]). split; [symmetry; assumption |]. split; [| split].
  - intros p2 w2. unfold fork_subsegment, __fork. rewrite Hlast. reflexivity.
  - intros w2. apply flush_empty; assumption.
  - intros sid md an ht w2. apply log_end_unknown. rewrite Hin. apply lookup_empty.
Qed.

(** X15: [fork_root] never raises.  Its child has the trace id, backlog and
    mock flag of the forking chain and is not a subsegment chain.  The
    parent of the child is the argument when one is given, else the last
    segment of the forking chain, and when there is neither, the [Parent] of
    the propagation string if the environment has one that parses, since
    the child is constructed with [use_env_trace_params] at its default. *)
Theorem fork_root_never_raises p c w :
  ∃ child w',
    fork_root p c w = inr (child, w')
    ∧ subsegment child = false ∧ trace_id child = trace_id c
    ∧ mock child = mock c ∧ backlog child = backlog c
    ∧ parent_id child
      = match p with
        | Some x => Some x
        | None => match last_segment_id c with
                  | Some s => Some s
                  | None => env_parent_id (env_trace_params true w)
                  end
        end
    ∧ (∀ r pa s,
         p = None → last_segment_id c = None →
         plain_value r = true → plain_value pa = true → plain_value s = true →
         environ w !! "_X_AMZN_TRACE_ID" = Some (trace_header r pa s) →
         parent_id child = Some pa).
Proof.
  destruct (fork_child false p c w (or_introl eq_refl))
    as (child & w' & E & Hp & Ht & Hb & Hm & Hs).
  exists child, w'. split; [exact E |].
  repeat (split; [assumption |]).
  intros r pa s -> Hlast Hr Hpa Hsm He. rewrite Hp, Hlast.
  unfold env_trace_params. rewrite He.
  rewrite parse_trace_header_well_formed by assumption. reflexivity.
Qed.

(** *** Edges of the buffer *)

(** X16: with a backlog of 1 or less (0 and negative values included) every
    accepted [log] flushes before it returns: with a free lock and a sink
    that answers, the buffer is empty after the call, and a chain that
    submits has handed the sink one batch, the former buffer followed by the
    new record. *)
Theorem backlog_of_one_flushes_every_record
    start_time end_time name metadata annotations http segment_id c w :
  (backlog c ≤ 1)%Z → is_text name = true → flush_lock c = false →
  sink_never_raises w →
  ∃ id c' w',
    log start_time end_time name metadata annotations http segment_id c w
    = Return id c' w'
    ∧ segments c' = []
    ∧ (mock c = false → is_Some (client w) →
       sink_calls w'
       = sink_calls w
         ++ [segments c
             ++ [json_dumps (segment_dict c start_time end_time name
                               metadata annotations http id)]]).
Proof.
  intros Hb Ht Hl Hs.
  destruct (log_total start_time end_time name metadata annotations http segment_id
              c w Ht Hl Hs) as (c' & w' & E & _ & _ & _ & _ & _ & Hlen).
  destruct (Z.ltb_spec (Z.of_nat (S (length (segments c)))) (backlog c)); [lia |].
  exists (chosen_id segment_id c w).1, c', w'. split; [exact E |].
  split; [destruct (segments c'); [reflexivity | discriminate] |].
  intros Hm [put Hc].
  pose proof (chosen_id_same_process segment_id c w) as [_ Hc1].
  assert (Hsc : sink_calls (chosen_id segment_id c w).2 = sink_calls w)
    by (unfold chosen_id; destruct (truthy_id segment_id); reflexivity).
  rewrite log_accepts in E by exact Ht. cbv zeta in E.
  rewrite buffered_length in E.
  destruct (Z.geb_spec (Z.of_nat (S (length (segments c)))) (backlog c)); [| lia].
  set (c2 := buffered _ _ _) in E.
  destruct (Hs put Hc (sink_calls (chosen_id segment_id c w).2) (segments c2))
    as [resp Hput].
  destruct (flush_submitted c2 (chosen_id segment_id c w).2 put resp Hl Hm)
    as (w2 & E2 & _ & Hsc2 & _);
    [subst c2; cbn; destruct (segments c); discriminate | congruence | exact Hput |].
  rewrite E2 in E. cbn [bind] in E. inversion E; subst.
  rewrite Hsc2, Hsc. reflexivity.
Qed.

(** X17: a [flush] that returns gives the number of segments that were in
    the buffer, and a [flush] right after it returns 0 and changes nothing,
    in any state of the process. *)
Theorem flush_then_flush_returns_zero c w n c' w' :
  flush c w = Return n c' w' →
  n = length (segments c) ∧ ∀ w2, flush c' w2 = Return 0%nat c' w2.
Proof.
  intros E. destruct (flush_returns_inv c w n c' w' E) as (-> & -> & Hl).
  split; [reflexivity |]. intros w2. apply flush_empty; [exact Hl | reflexivity].
Qed.


(** *** The constructor and the propagation string *)

Lemma split_on_pair sep piece :
  count_char sep piece = 1%nat →
  split_on sep piece = [before_char sep piece; after_char sep piece].
Proof.
  induction piece as [| ch piece IH]; cbn [count_char split_on before_char after_char];
    [discriminate |].
  destruct (Ascii.eqb ch sep).
  - intros H. rewrite split_on_plain by lia. reflexivity.
  - intros H. rewrite IH by exact H. reflexivity.
Qed.

Lemma py_dict_last_value pieces acc :
  forallb key_value_shaped pieces = true →
  ∃ d, py_dict (map (split_on "=") pieces) acc = Some d
       ∧ ∀ key, d !! key = match last_value key pieces with
                           | Some v => Some v
                           | None => acc !! key
                           end.
Proof.
  revert acc. induction pieces as [| piece pieces IH]; intros acc H.
  - exists acc. split; reflexivity.
  - cbn [forallb] in H. apply andb_prop in H as [Hp H].
    unfold key_value_shaped in Hp. apply Nat.eqb_eq in Hp.
    cbn [map]. rewrite (split_on_pair _ _ Hp). cbn [py_dict].
    destruct (IH (<[before_char "=" piece := after_char "=" piece]> acc) H)
      as (d & E & Hd).
    exists d. split; [exact E |]. intros key. rewrite Hd. cbn [last_value].
    destruct (last_value key pieces); [reflexivity |].
    destruct (String.eqb_spec (before_char "=" piece) key) as [-> | Hne].
    + apply lookup_insert_eq.
    + apply lookup_insert_ne. exact Hne.
Qed.

(** X18: the propagation string is parsed exactly when each of its
    [;]-separated pieces has exactly one [=], and [Root], [Parent] and
    [Sampled] each occur as a key; the value taken for a key is that of its
    last occurrence.  The order of the pieces and pieces with other keys do
    not matter. *)
Theorem parse_trace_header_last_occurrence_wins s r p sm :
  parse_trace_header s = Some (r, p, sm)
  ↔ bad_separators s = false
    ∧ last_value "Root" (split_on ";" s) = Some r
    ∧ last_value "Parent" (split_on ";" s) = Some p
    ∧ last_value "Sampled" (split_on ";" s) = Some sm.
Proof.
  unfold parse_trace_header.
  destruct (bad_separators s) eqn:Hbad.
  - apply bad_separators_items in Hbad as Hex.
    rewrite (py_dict_bad_item _ ∅ Hex). cbn. split; [discriminate |].
    intros [? _]; discriminate.
  - unfold bad_separators in Hbad. apply negb_false_iff in Hbad.
    destruct (py_dict_last_value (split_on ";" s) ∅ Hbad) as (d & -> & Hd).
    cbn [mbind option_bind]. rewrite !Hd, !lookup_empty.
    destruct (last_value "Root" (split_on ";" s)) as [r' |];
      destruct (last_value "Parent" (split_on ";" s)) as [p' |];
      destruct (last_value "Sampled" (split_on ";" s)) as [sm' |];
      cbn; split; try discriminate; try (intros (_ & ? & ? & ?); discriminate).
    + intros E. inversion E; subst. auto.
    + intros (_ & E1 & E2 & E3). inversion E1; inversion E2; inversion E3; subst.
      reflexivity.
Qed.

Lemma init_tick b p sub t m ue w :
  tick (__init__ b p sub t m ue w).2
  = match t, env_trace_id (env_trace_params ue w) with
    | None, None => S (S (S (tick w)))
    | _, _ => S (tick w)
    end.
Proof.
  unfold __init__. rewrite env_trace_params_next_tick.
  destruct t; [reflexivity |].
  destruct (env_trace_id (env_trace_params ue w)); reflexivity.
Qed.

(** X19: the trace id of a new chain is the [trace_id] argument when one is
    given, else the [Root] of the propagation string when that was read and
    parsed, else a generated one; the parent id is the [parent_id] argument
    when it is not [None], else the [Parent] of the propagation string when
    that was read and parsed (so passing [None] does not suppress it), else
    [None].  The key is always drawn; the clock and the uuid source are read
    only when a trace id is generated. *)
Theorem trace_and_parent_resolution b p sub t m ue w :
  let c := (__init__ b p sub t m ue w).1 in
  let w' := (__init__ b p sub t m ue w).2 in
  (∀ x, t = Some x → trace_id c = x ∧ tick w' = S (tick w))
  ∧ (∀ x, p = Some x → parent_id c = Some x)
  ∧ (∀ r pa s,
       env_trace_params ue w = Some (r, pa, s) →
       (t = None → trace_id c = r ∧ tick w' = S (tick w))
       ∧ (p = None → parent_id c = Some pa))
  ∧ (env_trace_params ue w = None →
     (p = None → parent_id c = None)
     ∧ (t = None →
        trace_id c = (fresh_trace_id (os_urandom16 (tick w)) (next_tick w)).1
        ∧ tick w' = S (S (S (tick w)))))
  ∧ trace_id_key c = os_urandom16 (tick w).
Proof.
  intros c w'.
  pose proof (init_fields b p sub t m ue w)
    as (_ & _ & _ & _ & _ & _ & Hk & Hp & _ & Ht).
  pose proof (init_tick b p sub t m ue w) as Hw.
  fold c in Hk, Hp, Ht. fold w' in Hw. cbv zeta in *.
  split; [| split; [| split; [| split]]].
  - intros x ->. split; [exact Ht | exact Hw].
  - intros x ->. exact Hp.
  - intros r pa s E. rewrite E in *. cbn [env_trace_id env_parent_id] in *.
    split; [intros ->; split; [exact Ht | exact Hw] | intros ->; exact Hp].
  - intros E. rewrite E in *. cbn [env_trace_id env_parent_id] in *.
    split; [intros ->; exact Hp | intros ->; split; [exact Ht | exact Hw]].
  - exact Hk.
Qed.

(** X20: with [use_env_trace_params] false the propagation string is not
    consulted, well-formed or not: the chain is the one that is built when
    the variable is not set. *)
Theorem environment_ignored_on_request b p sub t m w :
  let c := (__init__ b p sub t m false w).1 in
  c = (__init__ b p sub t m false (unset_env "_X_AMZN_TRACE_ID" w)).1
  ∧ parent_id c = p ∧ mock c = default false m.
Proof.
  intros c. split.
  - subst c. unfold __init__. destruct t; reflexivity.
  - pose proof (init_fields b p sub t m false w)
      as (_ & _ & _ & _ & _ & _ & _ & Hp & Hm & _).
    fold c in Hp, Hm. cbv zeta in *. cbn in Hp, Hm.
    split; [destruct p; exact Hp | destruct m; exact Hm].
Qed.

Lemma py_hex_nonneg z :
  (0 ≤ z < 2 ^ 63)%Z →
  HexString.of_Z z = "0x" +:+ drop_chars 2 (py_hex z).
Proof.
  intros [H0 H1]. unfold py_hex.
  destruct (Z.leb_spec (- 2 ^ 63) z); [| lia].
  destruct (Z.ltb_spec z (2 ^ 63)); [| lia]. cbn [andb].
  destruct z as [| q | q]; [reflexivity | reflexivity | lia].
Qed.

(** X21: a generated trace id is ["1-"], the time part, ["-"] and the first
    24 characters of the keyed digest of a fresh uuid.  For a clock between
    0 and 2^63 seconds the time part is the hexadecimal writing of the whole
    seconds of the clock: read back as a hexadecimal number it gives the
    clock truncated to an integer.  The digest part has 24 characters when
    the digest has that many. *)
Theorem generated_trace_id_format key w :
  (0 ≤ py_int_of_float (time_time (tick w)) < 2 ^ 63)%Z →
  ∃ time_part,
    (fresh_trace_id key w).1
    = "1-" +:+ time_part +:+ "-"
      +:+ take_chars 24 (hmac_sha256_hexdigest key (uuid_uuid1 (S (tick w))))
    ∧ HexString.to_Z ("0x" +:+ time_part) = py_int_of_float (time_time (tick w))
    ∧ ((24 ≤ String.length (hmac_sha256_hexdigest key (uuid_uuid1 (S (tick w)))))%nat →
       String.length
         (take_chars 24 (hmac_sha256_hexdigest key (uuid_uuid1 (S (tick w)))))
       = 24%nat).
Proof.
  intros H.
  exists (drop_chars 2 (py_hex (py_int_of_float (time_time (tick w))))).
  split; [reflexivity |]. split.
  - rewrite <- (py_hex_nonneg _ H). apply HexString.to_Z_of_Z.
  - intros Hlen. rewrite take_chars_length. lia.
Qed.


(** *** Offline chains *)

Lemma log_offline start_time end_time name metadata annotations http segment_id c w :
  is_text name = true → offline c w → flush_lock c = false →
  ∃ c' w',
    log start_time end_time name metadata annotations http segment_id c w
    = Return (chosen_id segment_id c w).1 c' w'
    ∧ offline c' w' ∧ flush_lock c' = false.
Proof.
  intros Ht Hoff Hl.
  pose proof (chosen_id_same_process segment_id c w) as [_ Hc].
  rewrite log_accepts by exact Ht. cbv zeta.
  set (c2 := buffered _ _ _). set (w1 := (chosen_id segment_id c w).2) in *.
  assert (Hoff2 : offline c2 w1) by (unfold offline in *; rewrite Hc; exact Hoff).
  destruct (Z.of_nat (length (segments c2)) >=? backlog c)%Z.
  - destruct (flush_offline c2 w1 Hl Hoff2) as (w' & E & [_ Hc'] & _).
    rewrite E. cbn [bind]. eexists _, w'. split; [reflexivity |].
    split; [| exact Hl]. unfold offline in *. cbn. rewrite Hc'. exact Hoff2.
  - eexists _, _. split; [reflexivity |]. split; [exact Hoff2 | exact Hl].
Qed.

Lemma perform_offline op c w :
  offline c w → flush_lock c = false →
  let r := perform op c w in
  came_back r = true ∧ offline (chain_after r) (world_after r)
  ∧ flush_lock (chain_after r) = false
  ∧ ∀ e c' w', r = Raise e c' w' →
      e = ValueError "'name' Parameter must be a string" ∨ ∃ key, e = KeyError key.
Proof.
  intros Hoff Hl r. subst r.
  assert (Hoff1 : offline c (next_tick w)) by exact Hoff.
  destruct op as [st en nm md an ht sid | nm | sid md an ht |]; cbn [perform].
  - destruct (is_text nm) eqn:Ht.
    + destruct (log_offline st en nm md an ht sid c w Ht Hoff Hl) as (c' & w' & E & ? & ?).
      rewrite E. cbn. repeat split; try assumption. discriminate.
    + rewrite log_rejects by exact Ht. cbn. repeat split; try assumption.
      intros e c' w' E. inversion E. left. reflexivity.
  - unfold log_start. destruct (is_text nm) eqn:Ht.
    + destruct (log_offline (PyFloat (time_time (tick w))) PyNone nm PyNone PyNone PyNone
                  None c (next_tick w) Ht Hoff1 Hl) as (c' & w' & E & ? & ?).
      rewrite E. cbn. repeat split; try assumption. discriminate.
    + rewrite log_rejects by exact Ht. cbn. repeat split; try assumption.
      intros e c' w' E. inversion E. left. reflexivity.
  - unfold log_end. destruct (in_progress c !! sid) as [span |].
    + destruct (is_text (span_name span)) eqn:Ht.
      * destruct (log_offline (span_start_time span) (PyFloat (time_time (tick w)))
                    (span_name span) md an ht (Some sid)
                    (set_in_progress c (delete sid (in_progress c))) (next_tick w)
                    Ht Hoff1 Hl) as (c' & w' & E & ? & ?).
        rewrite E. cbn. repeat split; try assumption. discriminate.
      * rewrite log_rejects by exact Ht. cbn. repeat split; try assumption.
        intros e c' w' E. inversion E. left. reflexivity.
    + cbn. repeat split; try assumption.
      intros e c' w' E. inversion E. right. eauto.
  - destruct (flush_offline c w Hl Hoff) as (w' & E & [_ Hc'] & _).
    rewrite E. cbn. repeat split; try assumption; [| discriminate].
    unfold offline in *. rewrite Hc'. exact Hoff.
Qed.

(** X22: a chain that is offline (mock mode, or no client) and whose lock
    is free never waits for the lock and never fails on the sink: every
    call of any sequence comes back, the lock is free afterwards, and no
    call raises the error of the sink. *)
Theorem offline_chain_never_blocks ops c w :
  offline c w → flush_lock c = false →
  came_back (perform_all ops c w) = true
  ∧ flush_lock (chain_after (perform_all ops c w)) = false
  ∧ ∀ op msg c' w',
      perform op (chain_after (perform_all ops c w)) (world_after (perform_all ops c w))
      ≠ Raise (SinkError msg) c' w'.
Proof.
  revert c w. induction ops as [| op ops IH]; intros c w Hoff Hl.
  - cbn. split; [reflexivity |]. split; [exact Hl |].
    intros op msg c' w' E.
    destruct (perform_offline op c w Hoff Hl) as (_ & _ & _ & He).
    destruct (He _ _ _ E) as [H | [key H]]; discriminate.
  - cbn [perform_all].
    destruct (perform_offline op c w Hoff Hl) as (Hcb & Hoff' & Hl' & _).
    destruct (perform op c w) as [a c' w' | e c' w' | c' w'];
      cbn [chain_after world_after came_back] in *; try discriminate;
      apply IH; assumption.
Qed.

(** *** The echo on [stderr] *)

(** X23: [flush] writes to [stderr] exactly when there is a client,
    [SQUELCH_XRAY] is not ["TRUE"], the lock is free and the buffer is not
    empty; mock mode does not silence it.  What it writes starts with the
    buffered segments in their order, each followed by a newline, and the
    line that announces their number. *)
Theorem flush_echo c w :
  (stderr (world_after (flush c w)) ≠ stderr w
   ↔ echo_enabled w = true ∧ flush_lock c = false ∧ segments c ≠ [])
  ∧ (echo_enabled w = true → flush_lock c = false → segments c ≠ [] →
     (stderr w
      ++ map (λ segment, segment +:+ newline) (segments c)
      ++ ["Submitting " +:+ pretty (length (segments c)) +:+ " segments" +:+ newline])
     `prefix_of` stderr (world_after (flush c w))).
Proof.
  assert (Hne : ∀ (l : list string) x k, l ++ x :: k ≠ l).
  { intros l x k H. apply (f_equal length) in H. rewrite length_app in H.
    cbn in H. lia. }
  unfold flush, flush_finish, echo_enabled.
  destruct (flush_lock c) eqn:Hl.
  { cbn. split; [split; [congruence | intros (_ & ? & _); discriminate] | discriminate]. }
  change (segments (set_flush_lock c true)) with (segments c).
  change (mock (set_flush_lock c true)) with (mock c).
  destruct (segments c) as [| s l] eqn:Hs.
  { cbn. split; [split; [congruence | intros (_ & _ & ?); congruence] | congruence]. }
  cbn [length Nat.eqb].
  destruct (client w) as [put |] eqn:Hc;
    [| cbn [client environ sink_calls stderr write_stderr record_sink_call];
       rewrite ?Hc; cbn;
       split; [split; [congruence | intros (? & _); discriminate] | discriminate]].
  destruct (negb _) eqn:Hb;
    cbn [client environ sink_calls stderr write_stderr record_sink_call];
    rewrite ?Hc, ?Hb; destruct (mock c) eqn:Hm;
    try destruct (put (sink_calls w) (s :: l)) as [resp | msg];
    cbn [client environ sink_calls stderr write_stderr record_sink_call
         world_after];
    rewrite ?Hc, ?Hb;
    cbn [client environ sink_calls stderr write_stderr record_sink_call
         world_after map app];
    (split;
     [split;
      [try congruence; intros _; repeat split; discriminate
      | try (intros (? & _); discriminate); intros _;
        rewrite <- ?app_assoc; apply Hne]
     | try discriminate; intros _ _ _;
       rewrite <- ?app_assoc; cbn [app];
       first [reflexivity | apply prefix_app_r; reflexivity
             | apply prefix_app, prefix_cons, prefix_app_r; reflexivity
             | idtac]]).
Qed.


(** ** The backlog, the spans and the forks, through the calls *)

Lemma flush_succeeds_returns c w :
  flush_lock c = false → flush_succeeds c w →
  ∃ w', flush c w = Return (length (segments c)) (set_segments c []) w'
        ∧ same_process w w' ∧ tick w' = tick w.
Proof.
  intros Hl [Hoff | Hs].
  - destruct (flush_offline c w Hl Hoff) as (w' & E & Hp & _ & Ht). eauto.
  - apply flush_total; assumption.
Qed.

Lemma flush_succeeds_same c w c' w' :
  mock c' = mock c → same_process w w' → flush_succeeds c w → flush_succeeds c' w'.
Proof.
  intros Hm Hp [Hoff | Hs].
  - left. unfold offline in *. destruct Hp as [_ ->]. rewrite Hm. exact Hoff.
  - right. eapply sink_never_raises_same; eassumption.
Qed.

(** What [log] gives when it returns: the record is at the end of the
    buffer, or the buffer that ends with it has been flushed. *)
Lemma log_returns_exact start_time end_time name metadata annotations http
    segment_id c w a c' w' :
  log start_time end_time name metadata annotations http segment_id c w
  = Return a c' w' →
  let id := (chosen_id segment_id c w).1 in
  let w1 := (chosen_id segment_id c w).2 in
  let c2 := buffered c id
              (json_dumps (segment_dict c start_time end_time name
                             metadata annotations http id)) in
  is_text name = true ∧ a = id
  ∧ (((Z.of_nat (S (length (segments c))) < backlog c)%Z ∧ c' = c2 ∧ w' = w1)
     ∨ ((backlog c ≤ Z.of_nat (S (length (segments c))))%Z
        ∧ flush c2 w1 = Return (S (length (segments c))) c' w')).
Proof.
  intros E id w1 c2. destruct (is_text name) eqn:Ht;
    [| rewrite log_rejects in E by exact Ht; discriminate].
  rewrite log_accepts in E by exact Ht. cbv zeta in E. fold id w1 c2 in E.
  pose proof (buffered_length c id
                (json_dumps (segment_dict c start_time end_time name
                               metadata annotations http id))) as Hlen.
  fold c2 in Hlen. rewrite Hlen in E.
  destruct (Z.geb_spec (Z.of_nat (S (length (segments c)))) (backlog c)).
  - destruct (flush c2 w1) as [n c3 w3 | e c3 w3 | c3 w3] eqn:Ef; cbn [bind] in E;
      try discriminate.
    inversion E; subst. split; [reflexivity |]. split; [reflexivity |].
    right. split; [lia |].
    destruct (flush_returns_inv _ _ _ _ _ Ef) as (_ & -> & _).
    rewrite Hlen. reflexivity.
  - inversion E; subst. split; [reflexivity |]. split; [reflexivity |].
    left. repeat split. lia.
Qed.

(** With a free lock and a flush that succeeds, [log] returns. *)
Lemma log_total_gen start_time end_time name metadata annotations http segment_id c w :
  is_text name = true → flush_lock c = false → flush_succeeds c w →
  ∃ c' w',
    log start_time end_time name metadata annotations http segment_id c w
    = Return (chosen_id segment_id c w).1 c' w'
    ∧ flush_lock c' = false ∧ in_progress c' = in_progress c
    ∧ backlog c' = backlog c ∧ flush_succeeds c' w'
    ∧ length (segments c')
      = if (Z.of_nat (S (length (segments c))) <? backlog c)%Z
        then S (length (segments c)) else 0%nat.
Proof.
  intros Ht Hl Hs.
  pose proof (chosen_id_same_process segment_id c w) as Hp.
  rewrite log_accepts by exact Ht. cbv zeta. rewrite buffered_length.
  set (c2 := buffered _ _ _). set (w1 := (chosen_id segment_id c w).2) in *.
  assert (Hs2 : flush_succeeds c2 w1)
    by (eapply (flush_succeeds_same c w); [reflexivity | exact Hp | exact Hs]).
  destruct (Z.ltb_spec (Z.of_nat (S (length (segments c)))) (backlog c)) as [Hlt | Hge].
  - destruct (Z.geb_spec (Z.of_nat (S (length (segments c)))) (backlog c)); [lia |].
    eexists _, _. split; [reflexivity |].
    repeat split; try assumption. apply buffered_length.
  - destruct (Z.geb_spec (Z.of_nat (S (length (segments c)))) (backlog c)); [| lia].
    destruct (flush_succeeds_returns c2 w1 Hl Hs2) as (w' & E & Hp' & _).
    rewrite E. cbn [bind]. eexists _, _. split; [reflexivity |].
    repeat split; try assumption.
    eapply (flush_succeeds_same c2 w1); [reflexivity | exact Hp' | exact Hs2].
Qed.

Lemma record_calls_lengths_gen ops c w :
  (1 ≤ backlog c)%Z → flush_lock c = false →
  (Z.of_nat (length (segments c)) < backlog c)%Z → flush_succeeds c w →
  forallb is_record_call ops = true →
  buffer_lengths ops c w
  = map (λ i, (length (segments c) + i) mod Z.to_nat (backlog c)) (seq 1 (length ops)).
Proof.
  revert c w. induction ops as [| op ops IH]; intros c w Hb Hl Hlt Hs Hops;
    [reflexivity |].
  cbn [forallb] in Hops. apply andb_prop in Hops as [Hop Hops].
  destruct op as [st en nm md an ht sid | | |]; try discriminate.
  cbn [is_record_call] in Hop. cbn [buffer_lengths perform].
  destruct (log_total_gen st en nm md an ht sid c w Hop Hl Hs)
    as (c' & w' & E & Hl' & _ & Hbk & Hs' & Hlen).
  rewrite E. cbn [bind length seq map].
  assert (Hstep : length (segments c')
                  = (length (segments c) + 1) mod Z.to_nat (backlog c)).
  { rewrite Hlen.
    destruct (Z.ltb_spec (Z.of_nat (S (length (segments c)))) (backlog c)).
    - rewrite Nat.mod_small; lia.
    - replace (length (segments c) + 1)%nat with (Z.to_nat (backlog c)) by lia.
      rewrite Nat.Div0.mod_same. reflexivity. }
  assert (Hlt' : (Z.of_nat (length (segments c')) < backlog c')%Z).
  { rewrite Hstep, Hbk.
    pose proof (Nat.mod_upper_bound (length (segments c) + 1) (Z.to_nat (backlog c))).
    lia. }
  f_equal; [exact Hstep |].
  rewrite IH; try assumption; [| lia].
  rewrite Hbk. apply shifted_lengths. exact Hstep.
Qed.




Lemma perform_keeps_closed op c w id :
  is_log_start op = false → in_progress c !! id = None →
  in_progress (chain_after (perform op c w)) !! id = None.
Proof.
  intros Hop Hid.
  destruct op as [st en nm md an ht sid | nm | sid md an ht |]; try discriminate;
    cbn [perform]; rewrite (proj1 (chain_after_bind_return _ _)).
  - rewrite (proj1 (proj2 (log_frame _ _ _ _ _ _ _ _ _))). exact Hid.
  - unfold log_end. destruct (in_progress c !! sid) as [span |]; [| exact Hid].
    rewrite (proj1 (proj2 (log_frame _ _ _ _ _ _ _ _ _))).
    cbn [set_in_progress in_progress]. apply lookup_delete_None. right. exact Hid.
  - pose proof (flush_effects c w) as (_ & _ & _ & -> & _). exact Hid.
Qed.

Lemma perform_all_keeps_closed ops c w id :
  forallb (λ op, negb (is_log_start op)) ops = true → in_progress c !! id = None →
  in_progress (chain_after (perform_all ops c w)) !! id = None.
Proof.
  revert c w. induction ops as [| op ops IH]; intros c w Hops Hid; [exact Hid |].
  cbn [forallb] in Hops. apply andb_prop in Hops as [Hop Hops].
  apply negb_true_iff in Hop. cbn [perform_all].
  pose proof (perform_keeps_closed op c w id Hop Hid) as H.
  destruct (perform op c w) as [a c' w' | e c' w' | c' w']; cbn [chain_after] in *;
    try (apply IH; assumption); exact H.
Qed.

(** C7, as amended: closing an id that is not in the open-span table (never
    opened, or closed before) raises the lookup error and leaves the chain
    and the world as they were, so no record is emitted.  A [log_end] on an
    id that is in the table takes out that entry and no other, whether the
    call then returns or raises; after it, and after any further calls that
    open no span, every [log_end] on that id raises the lookup error: at
    most one close of a span succeeds.  The close returns, having recorded
    the completed segment, when the lock is free and its flush succeeds
    (the chain is offline, or the sink answers).  A span that [log_start]
    has opened is in the table with a text name. *)
Theorem log_end_closes_exactly_once segment_id metadata annotations http c w :
  let r := log_end segment_id metadata annotations http c w in
  (in_progress c !! segment_id = None → r = Raise (KeyError segment_id) c w)
  ∧ (∀ span,
       in_progress c !! segment_id = Some span →
       in_progress (chain_after r) = delete segment_id (in_progress c)
       ∧ (∀ ops w2 metadata' annotations' http' w3,
            forallb (λ op, negb (is_log_start op)) ops = true →
            log_end segment_id metadata' annotations' http'
              (chain_after (perform_all ops (chain_after r) w2)) w3
            = Raise (KeyError segment_id)
                (chain_after (perform_all ops (chain_after r) w2)) w3)
       ∧ (is_text (span_name span) = true → flush_lock c = false →
          flush_succeeds c w →
          let c1 := set_in_progress c (delete segment_id (in_progress c)) in
          let id := (chosen_id (Some segment_id) c1 (next_tick w)).1 in
          let w1 := (chosen_id (Some segment_id) c1 (next_tick w)).2 in
          let c2 := buffered c1 id
                      (json_dumps
                         (segment_dict c (span_start_time span)
                            (PyFloat (time_time (tick w))) (span_name span)
                            metadata annotations http id)) in
          ∃ c' w',
            r = Return id c' w'
            ∧ (((Z.of_nat (S (length (segments c))) < backlog c)%Z
                ∧ c' = c2 ∧ w' = w1)
               ∨ ((backlog c ≤ Z.of_nat (S (length (segments c))))%Z
                  ∧ flush c2 w1 = Return (S (length (segments c))) c' w'))))
  ∧ (∀ name id c1 w1,
       log_start name c w = Return id c1 w1 →
       in_progress c1 !! id = Some (mkSpan (PyFloat (time_time (tick w))) name)
       ∧ is_text name = true).
Proof.
  intros r. subst r. split; [apply log_end_unknown |]. split.
  - intros span Hin.
    assert (Hdel : in_progress (chain_after (log_end segment_id metadata annotations
                                               http c w))
                   = delete segment_id (in_progress c)).
    { unfold log_end. rewrite Hin. apply log_frame. }
    split; [exact Hdel |]. split.
    + intros ops w2 md' an' ht' w3 Hops. apply log_end_unknown.
      apply perform_all_keeps_closed; [exact Hops |].
      rewrite Hdel. apply lookup_delete_eq.
    + intros Ht Hl Hs c1 id w1 c2. unfold log_end. rewrite Hin.
      destruct (log_total_gen (span_start_time span) (PyFloat (time_time (tick w)))
                  (span_name span) metadata annotations http (Some segment_id)
                  c1 (next_tick w) Ht Hl
                  (flush_succeeds_same c w c1 (next_tick w) eq_refl
                     ltac:(split; reflexivity) Hs))
        as (c' & w' & E & _).
      fold c1. rewrite E. exists c', w'. split; [reflexivity |].
      destruct (log_returns_exact _ _ _ _ _ _ _ _ _ _ _ _ E) as (_ & _ & H).
      exact H.
  - intros name id c1 w1 E. unfold log_start in E.
    destruct (log _ _ _ _ _ _ _ _ _) as [id' c' w' | |] eqn:El; cbn [bind] in E;
      try discriminate.
    inversion E; subst. split; [apply lookup_insert_eq |].
    apply (log_returns_exact _ _ _ _ _ _ _ _ _ _ _ _ El).
Qed.

Lemma has_emitted_last_segment_id s c :
  has_emitted s c → last_segment_id c = Some s.
Proof.
  induction 1 as [st en nm md an ht sid c0 w0 s c w E | nm c0 w0 s c w E
                  | sid md an ht c0 w0 s c w E | st en nm md an ht sid c0 w0 Ht
                  | s c w _ IH].
  - destruct (log_returns_exact _ _ _ _ _ _ _ _ _ _ _ _ E) as (Ht & Hs & _).
    pose proof (log_last_segment_id st en nm md an ht sid c0 w0 Ht) as H.
    rewrite E in H. cbn [chain_after] in H. rewrite H, Hs. reflexivity.
  - unfold log_start in E.
    destruct (log _ _ _ _ _ _ _ _ _) as [id' c' w' | |] eqn:El; cbn [bind] in E;
      try discriminate.
    inversion E; subst. cbn [set_in_progress last_segment_id].
    destruct (log_returns_exact _ _ _ _ _ _ _ _ _ _ _ _ El) as (Ht & Hs & _).
    pose proof (log_last_segment_id (PyFloat (time_time (tick w0))) PyNone nm PyNone
                  PyNone PyNone None c0 (next_tick w0) Ht) as H.
    rewrite El in H. cbn [chain_after] in H. rewrite H, Hs. reflexivity.
  - unfold log_end in E. destruct (in_progress c0 !! sid) as [span |]; [| discriminate].
    destruct (log_returns_exact _ _ _ _ _ _ _ _ _ _ _ _ E) as (Ht & Hs & _).
    pose proof (log_last_segment_id (span_start_time span)
                  (PyFloat (time_time (tick w0))) (span_name span) md an ht (Some sid)
                  (set_in_progress c0 (delete sid (in_progress c0))) (next_tick w0) Ht)
      as H.
    rewrite E in H. cbn [chain_after] in H. rewrite H, Hs. reflexivity.
  - apply log_last_segment_id. exact Ht.
  - pose proof (flush_effects c w) as (_ & _ & _ & _ & -> & _). exact IH.
Qed.

(** C8: on a chain that has emitted a segment through [log], [log_start] or
    [log_end], the most recent one with id [s] (flushes may have followed,
    and the automatic flush of the emitting call may have failed),
    [fork_root()] and [fork_subsegment()] without a parent argument build a
    child reporting under [s], with the trace id, backlog and mock flag of
    the forking chain; [fork_root] gives [subsegment = false],
    [fork_subsegment] gives [subsegment = true]. *)
Theorem fork_without_parent_inherits c w s :
  has_emitted s c →
  (∃ child w', fork_root None c w = inr (child, w')
               ∧ parent_id child = Some s ∧ trace_id child = trace_id c
               ∧ backlog child = backlog c ∧ mock child = mock c
               ∧ subsegment child = false)
  ∧ (∃ child w', fork_subsegment None c w = inr (child, w')
                 ∧ parent_id child = Some s ∧ trace_id child = trace_id c
                 ∧ backlog child = backlog c ∧ mock child = mock c
                 ∧ subsegment child = true).
Proof.
  intros H%has_emitted_last_segment_id. split.
  - destruct (fork_child false None c w) as (child & w' & E & Hp & Ht & Hb & Hm & Hs);
      [left; reflexivity |].
    exists child, w'. rewrite H in Hp. repeat split; assumption.
  - destruct (fork_child true None c w) as (child & w' & E & Hp & Ht & Hb & Hm & Hs);
      [right; rewrite H; eauto |].
    exists child, w'. rewrite H in Hp. repeat split; assumption.
Qed.


(** ** The records, exactly *)

(** X9: the document that [log] serializes.  Each of its keys is one of the
    eleven keys of a segment and occurs once.  It always has the name, the
    id, the trace id of the chain and the start time.  It has
    [in_progress = true] and no [end_time] when the end time is [None], and
    the [end_time] and no [in_progress] otherwise.  [parent_id] is there
    exactly when the chain has a parent, [type = "subsegment"] exactly on a
    subsegment chain, and [metadata], [http] and [annotations] exactly when
    they are not [None]: an optional field is left out, never null.  A [log]
    that returns has either left the buffer extended by the serialized
    document, with nothing else changed but [last_segment_id], or has run
    [flush] on the buffer so extended and left what that flush left. *)
Theorem segment_document_fields
    start_time end_time name metadata annotations http segment_id c w :
  let id := (chosen_id segment_id c w).1 in
  let w1 := (chosen_id segment_id c w).2 in
  let d := segment_dict c start_time end_time name metadata annotations http id in
  NoDup (dict_keys d) ∧ (∀ key, key ∈ dict_keys d → key ∈ segment_keys)
  ∧ dict_get "name" d = Some name ∧ dict_get "id" d = Some (PyStr id)
  ∧ dict_get "trace_id" d = Some (PyStr (trace_id c))
  ∧ dict_get "start_time" d = Some start_time
  ∧ dict_get "in_progress" d
    = (if is_py_none end_time then Some (PyBool true) else None)
  ∧ dict_get "end_time" d = (if is_py_none end_time then None else Some end_time)
  ∧ dict_get "parent_id" d = PyStr <$> parent_id c
  ∧ dict_get "type" d = (if subsegment c then Some (PyStr "subsegment") else None)
  ∧ dict_get "metadata" d = (if is_py_none metadata then None else Some metadata)
  ∧ dict_get "http" d = (if is_py_none http then None else Some http)
  ∧ dict_get "annotations" d
    = (if is_py_none annotations then None else Some annotations)
  ∧ (∀ a c' w',
       log start_time end_time name metadata annotations http segment_id c w
       = Return a c' w' →
       a = id
       ∧ (((Z.of_nat (S (length (segments c))) < backlog c)%Z
           ∧ c' = buffered c id (json_dumps d) ∧ w' = w1)
          ∨ ((backlog c ≤ Z.of_nat (S (length (segments c))))%Z
             ∧ flush (buffered c id (json_dumps d)) w1
               = Return (S (length (segments c))) c' w'))).
Proof.
  intros id w1 d.
  assert (Hfields :
    dict_keys d `sublist_of` segment_keys
    ∧ dict_get "name" d = Some name ∧ dict_get "id" d = Some (PyStr id)
    ∧ dict_get "trace_id" d = Some (PyStr (trace_id c))
    ∧ dict_get "start_time" d = Some start_time
    ∧ dict_get "in_progress" d
      = (if is_py_none end_time then Some (PyBool true) else None)
    ∧ dict_get "end_time" d = (if is_py_none end_time then None else Some end_time)
    ∧ dict_get "parent_id" d = PyStr <$> parent_id c
    ∧ dict_get "type" d = (if subsegment c then Some (PyStr "subsegment") else None)
    ∧ dict_get "metadata" d = (if is_py_none metadata then None else Some metadata)
    ∧ dict_get "http" d = (if is_py_none http then None else Some http)
    ∧ dict_get "annotations" d
      = (if is_py_none annotations then None else Some annotations)).
  { unfold dict_keys, dict_get, d. rewrite segment_dict_items. unfold segment_keys.
    destruct (is_py_none end_time), (parent_id c), (subsegment c),
      (is_py_none metadata), (is_py_none http), (is_py_none annotations);
      cbn; (split; [sublist_keys | repeat split]). }
  destruct Hfields as (Hsub & Hrest).
  split.
  { eapply sublist_NoDup; [| exact Hsub].
    apply (bool_decide_unpack _). vm_compute. exact I. }
  split; [intros key Hk; eapply elem_of_sublist; eassumption |].
  repeat (split; [apply Hrest |]).
  intros a c' w' E.
  destruct (log_returns_exact _ _ _ _ _ _ _ _ _ _ _ _ E) as (_ & Ha & H).
  split; [exact Ha | exact H].
Qed.

(** X10: [log_start] reads the clock and records an in-progress segment
    under a fresh id; when that has returned, the chain is the one [log]
    left (the buffer extended by the in-progress document, or what the
    flush of that buffer left) with the id entered in the open-span table
    under that start time and the name, the other entries as they were.  A
    name that is not text is rejected after the clock was read, with the
    chain unchanged.  When the call raises, the table is unchanged; when the
    automatic flush raised, the in-progress record is in the buffer but the
    span is not in the table. *)
Theorem log_start_registers_the_span name c w :
  let r := log_start name c w in
  let now := PyFloat (time_time (tick w)) in
  let id := take_chars 16 (hmac_sha256_hexdigest (trace_id_key c)
                             (uuid_uuid1 (S (tick w)))) in
  let doc := json_dumps (segment_dict c now PyNone name PyNone PyNone PyNone id) in
  let c2 := buffered c id doc in
  let w1 := next_tick (next_tick w) in
  (is_text name = false →
   r = Raise (ValueError "'name' Parameter must be a string") c (next_tick w))
  ∧ (∀ a c1 w1',
       r = Return a c1 w1' →
       a = id ∧ last_segment_id c1 = Some id
       ∧ in_progress c1 = <[id := mkSpan now name]> (in_progress c)
       ∧ (((Z.of_nat (S (length (segments c))) < backlog c)%Z
           ∧ c1 = set_in_progress c2 (<[id := mkSpan now name]> (in_progress c))
           ∧ w1' = w1)
          ∨ ((backlog c ≤ Z.of_nat (S (length (segments c))))%Z
             ∧ ∃ c', flush c2 w1 = Return (S (length (segments c))) c' w1'
                     ∧ c1 = set_in_progress c'
                              (<[id := mkSpan now name]> (in_progress c)))))
  ∧ (∀ e c1 w1', r = Raise e c1 w1' → in_progress c1 = in_progress c)
  ∧ (∀ msg c1 w1',
       r = Raise (SinkError msg) c1 w1' →
       segments c1 = segments c ++ [doc]
       ∧ in_progress c1 !! id = in_progress c !! id).
Proof.
  intros r now id doc c2 w1. subst r. unfold log_start. fold now.
  split; [intros Ht; rewrite log_rejects by exact Ht; reflexivity |].
  pose proof (log_frame now PyNone name PyNone PyNone PyNone None c (next_tick w))
    as (_ & Hin & _).
  split; [| split].
  - intros a c1 w1' E.
    destruct (log now PyNone name PyNone PyNone PyNone None c (next_tick w))
      as [id' c' w' | e c' w' | c' w'] eqn:El; cbn [bind] in E; try discriminate.
    inversion E; subst a c1 w1'. clear E. cbn [chain_after] in Hin.
    destruct (log_returns_exact _ _ _ _ _ _ _ _ _ _ _ _ El) as (Ht & Hid & Hcases).
    change ((chosen_id None c (next_tick w)).1) with id in Hid, Hcases.
    change ((chosen_id None c (next_tick w)).2) with w1 in Hcases.
    fold doc c2 in Hcases. subst id'.
    pose proof (log_last_segment_id now PyNone name PyNone PyNone PyNone None c
                  (next_tick w) Ht) as Hlast.
    rewrite El in Hlast. cbn [chain_after] in Hlast.
    change ((chosen_id None c (next_tick w)).1) with id in Hlast.
    split; [reflexivity |]. split; [exact Hlast |].
    split; [cbn [set_in_progress in_progress]; rewrite Hin; reflexivity |].
    destruct Hcases as [(Hlt & -> & ->) | (Hge & Ef)].
    + left. repeat split. exact Hlt.
    + right. split; [exact Hge |]. exists c'. split; [exact Ef |].
      rewrite Hin. reflexivity.
  - intros e c1 w1' E.
    destruct (log now PyNone name PyNone PyNone PyNone None c (next_tick w))
      as [id' c' w' | e' c' w' | c' w'] eqn:El; cbn [bind] in E; try discriminate.
    inversion E; subst. exact Hin.
  - intros msg c1 w1' E.
    destruct (is_text name) eqn:Ht;
      [| rewrite log_rejects in E by exact Ht; discriminate].
    destruct (log_cases now PyNone name PyNone PyNone PyNone None c (next_tick w) Ht)
      as [[_ El] | [_ [[_ El] | [(_ & w' & El & _) | (_ & _ & msg' & w' & El & _)]]]];
      rewrite El in E; cbn [bind] in E; try discriminate.
    inversion E; subst. split; reflexivity.
Qed.

(** X11: [log_end] on an open span takes the entry out of the table
    however the call then ends, and leaves the other entries.  With the
    stored name, it records the completed segment under the same id, with
    the stored start time and the clock as end time: that id is the
    [last_segment_id] however the call ends, and when the call returns it
    returns the id and has either left the buffer extended by the
    serialized document, or has run [flush] on the buffer so extended and
    left what that flush left. *)
Theorem log_end_completes_the_span segment_id metadata annotations http c w span :
  in_progress c !! segment_id = Some span →
  let r := log_end segment_id metadata annotations http c w in
  let c1 := set_in_progress c (delete segment_id (in_progress c)) in
  let doc := json_dumps
               (segment_dict c (span_start_time span) (PyFloat (time_time (tick w)))
                  (span_name span) metadata annotations http segment_id) in
  in_progress (chain_after r) = delete segment_id (in_progress c)
  ∧ (is_text (span_name span) = true → segment_id ≠ "" →
     last_segment_id (chain_after r) = Some segment_id
     ∧ ∀ a c' w', r = Return a c' w' →
         a = segment_id
         ∧ (((Z.of_nat (S (length (segments c))) < backlog c)%Z
             ∧ c' = buffered c1 segment_id doc ∧ w' = next_tick w)
            ∨ ((backlog c ≤ Z.of_nat (S (length (segments c))))%Z
               ∧ flush (buffered c1 segment_id doc) (next_tick w)
                 = Return (S (length (segments c))) c' w'))).
Proof.
  intros Hin r c1 doc. subst r. unfold log_end. rewrite Hin. fold c1.
  split; [apply log_frame |].
  intros Ht Hne.
  assert (Hid : chosen_id (Some segment_id) c1 (next_tick w)
                = (segment_id, next_tick w)).
  { unfold chosen_id, truthy_id. destruct (String.eqb_spec segment_id ""); [done |].
    reflexivity. }
  split.
  - rewrite log_last_segment_id by exact Ht. rewrite Hid. reflexivity.
  - intros a c' w' E.
    destruct (log_returns_exact _ _ _ _ _ _ _ _ _ _ _ _ E) as (_ & Ha & H).
    rewrite Hid in Ha, H. cbn [fst snd] in Ha, H.
    split; [exact Ha | exact H].
Qed.

(** X12: [trace] runs the wrapped function first and records its segment
    afterwards.  When the function raises or never returns, so does the
    wrapper, and nothing is recorded.  When the function returns and the
    name is not text, the wrapper raises the invalid-input error after the
    function has run, and its result is lost.  With a text name, a free lock
    and a flush that succeeds, the wrapper returns the result of the
    function and has recorded one segment that starts at the clock read
    before the call and ends at the clock read after it: the buffer that
    the function left is extended by that document, or [flush] has run on
    the buffer so extended. *)
Theorem trace_records_after_the_call {A : Type} name
    (target : Chain → World → outcome A) c w :
  let r := trace name target c w in
  let start := PyFloat (time_time (tick w)) in
  (∀ e c1 w1, target c (next_tick w) = Raise e c1 w1 → r = Raise e c1 w1)
  ∧ (∀ c1 w1, target c (next_tick w) = Block c1 w1 → r = Block c1 w1)
  ∧ (∀ ret c1 w1,
       target c (next_tick w) = Return ret c1 w1 →
       (is_text name = false →
        r = Raise (ValueError "'name' Parameter must be a string") c1 (next_tick w1))
       ∧ (is_text name = true → flush_lock c1 = false → flush_succeeds c1 w1 →
          let id := take_chars 16 (hmac_sha256_hexdigest (trace_id_key c1)
                                     (uuid_uuid1 (S (tick w1)))) in
          let doc := json_dumps
                       (segment_dict c1 start (PyFloat (time_time (tick w1))) name
                          PyNone PyNone PyNone id) in
          ∃ c2 w2,
            r = Return ret c2 w2
            ∧ last_segment_id c2 = Some id ∧ in_progress c2 = in_progress c1
            ∧ (((Z.of_nat (S (length (segments c1))) < backlog c1)%Z
                ∧ c2 = buffered c1 id doc ∧ w2 = next_tick (next_tick w1))
               ∨ ((backlog c1 ≤ Z.of_nat (S (length (segments c1))))%Z
                  ∧ flush (buffered c1 id doc) (next_tick (next_tick w1))
                    = Return (S (length (segments c1))) c2 w2)))).
Proof.
  intros r start. subst r. unfold trace. fold start.
  split; [intros e c1 w1 ->; reflexivity |].
  split; [intros c1 w1 ->; reflexivity |].
  intros ret c1 w1 ->. cbn [bind]. split.
  - intros Ht. rewrite log_rejects by exact Ht. reflexivity.
  - intros Ht Hl Hs.
    destruct (log_total_gen start (PyFloat (time_time (tick w1))) name PyNone PyNone
                PyNone None c1 (next_tick w1) Ht Hl
                (flush_succeeds_same c1 w1 c1 (next_tick w1) eq_refl
                   ltac:(split; reflexivity) Hs))
      as (c2 & w2 & E & _ & Hin & _).
    pose proof (log_last_segment_id start (PyFloat (time_time (tick w1))) name PyNone
                  PyNone PyNone None c1 (next_tick w1) Ht) as Hlast.
    rewrite E in Hlast. cbn [chain_after] in Hlast.
    rewrite E. cbn [bind]. exists c2, w2. split; [reflexivity |].
    split; [exact Hlast |]. split; [exact Hin |].
    destruct (log_returns_exact _ _ _ _ _ _ _ _ _ _ _ _ E) as (_ & _ & H). exact H.
Qed.

End XrayChain.

(** ** The properties at concrete inputs *)

Local Abbreviation demo_init := (__init__ Demo.hmac Demo.urandom16 Demo.clock Demo.uuid1).
Local Abbreviation demo_flush := (flush Demo.dumps).
Local Abbreviation demo_log := (log Demo.hmac Demo.dumps Demo.uuid1).
Local Abbreviation demo_log_start := (log_start Demo.hmac Demo.dumps Demo.clock Demo.uuid1).
Local Abbreviation demo_log_end := (log_end Demo.hmac Demo.dumps Demo.clock Demo.uuid1).
Local Abbreviation demo_fork_subsegment :=
  (fork_subsegment Demo.hmac Demo.urandom16 Demo.clock Demo.uuid1).
Local Abbreviation demo_fork_root :=
  (fork_root Demo.hmac Demo.urandom16 Demo.clock Demo.uuid1).
Local Abbreviation demo_record name :=
  (CallLog (PyInt 0) (PyInt 1) (PyStr name) PyNone PyNone PyNone None).

Lemma accepting_sink_never_raises :
  sink_never_raises (Demo.world (Some Demo.accepting_sink)).
Proof. intros put H. inversion H; subst. intros history batch. eexists. reflexivity. Qed.

(** The scenario of the specification: backlog 2, mock mode, a span opened
    and closed; the second record fills the backlog and the buffer is empty
    afterwards. *)
Example open_close_backlog_two :
  buffer_lengths Demo.hmac Demo.dumps Demo.clock Demo.uuid1
    [CallLogStart (PyStr "work"); CallLogEnd "u1-k0-0123456789" PyNone PyNone PyNone;
     CallFlush]
    (Demo.chain 2 true) (Demo.world None)
  = [1; 0; 0]%nat.
Proof. vm_compute. reflexivity. Qed.

(** C1 as the specification states it does not hold: after the sink has
    raised, the buffer still holds the two segments, and the next [flush]
    never returns. *)
Lemma flush_sink_failure_keeps_buffer_and_lock :
  demo_flush (Demo.busy_chain 100 false) (Demo.world (Some Demo.failing_sink))
  = Raise (SinkError "endpoint unreachable")
      (set_flush_lock (Demo.busy_chain 100 false) true)
      (world_after (demo_flush (Demo.busy_chain 100 false)
                      (Demo.world (Some Demo.failing_sink))))
  ∧ segments (set_flush_lock (Demo.busy_chain 100 false) true)
    = ["{name=a}"; "{name=work}"]
  ∧ came_back
      (demo_flush (set_flush_lock (Demo.busy_chain 100 false) true)
         (world_after (demo_flush (Demo.busy_chain 100 false)
                         (Demo.world (Some Demo.failing_sink)))))
    = false.
Proof. vm_compute. repeat split. Qed.

Lemma flush_sink_failure_propagates_witness :
  ∃ c' w',
    demo_flush (Demo.busy_chain 100 false) (Demo.world (Some Demo.failing_sink))
    = Raise (SinkError "endpoint unreachable") c' w'
    ∧ segments c' = segments (Demo.busy_chain 100 false)
    ∧ last_segment_id c' = last_segment_id (Demo.busy_chain 100 false)
    ∧ in_progress c' = in_progress (Demo.busy_chain 100 false)
    ∧ same_identity (Demo.busy_chain 100 false) c'
    ∧ sink_calls w'
      = sink_calls (Demo.world (Some Demo.failing_sink))
        ++ [segments (Demo.busy_chain 100 false)].
Proof.
  apply (flush_sink_failure_propagates Demo.dumps (Demo.busy_chain 100 false)
           (Demo.world (Some Demo.failing_sink)) Demo.failing_sink
           "endpoint unreachable"); try reflexivity.
  discriminate.
Defined.

(** C2 as the specification states it does not hold: on a freshly
    constructed chain, [fork_subsegment] with an explicit parent id raises. *)
Lemma fork_subsegment_explicit_parent_on_fresh_chain_raises :
  last_segment_id (demo_init 100 None false None None true (Demo.world None)).1 = None
  ∧ demo_fork_subsegment (Some "abc123")
      (demo_init 100 None false None None true (Demo.world None)).1
      (demo_init 100 None false None None true (Demo.world None)).2
    = inl (RuntimeError
             "Cannot create a subsegment fork() from a chain that has never emitted a segment").
Proof. vm_compute. split; reflexivity. Qed.

Lemma fork_subsegment_illegal_iff_never_emitted_witness :
  demo_fork_subsegment (Some "abc123") (Demo.chain 100 true) (Demo.world None)
  = inl (RuntimeError
           "Cannot create a subsegment fork() from a chain that has never emitted a segment")
  ∧ ∃ child w',
      demo_fork_subsegment (Some "abc123") (Demo.busy_chain 100 true) (Demo.world None)
      = inr (child, w')
      ∧ subsegment child = true ∧ parent_id child = Some "abc123".
Proof.
  split.
  - apply (proj1 (fork_subsegment_illegal_iff_never_emitted Demo.hmac Demo.urandom16
                    Demo.clock Demo.uuid1 (Some "abc123") (Demo.chain 100 true)
                    (Demo.world None))).
    reflexivity.
  - apply (proj2 (fork_subsegment_illegal_iff_never_emitted Demo.hmac Demo.urandom16
                    Demo.clock Demo.uuid1 (Some "abc123") (Demo.busy_chain 100 true)
                    (Demo.world None)) "00000000000000a2").
    reflexivity.
Defined.

(** C3 as the specification states it does not hold: the empty string is
    not a non-empty text value, yet [log] accepts it and buffers a record. *)
Lemma log_accepts_empty_name :
  is_nonempty_text (PyStr "") = false
  ∧ came_back (demo_log (PyInt 0) (PyInt 1) (PyStr "") PyNone PyNone PyNone None
                 (Demo.chain 100 true) (Demo.world None)) = true
  ∧ length (segments (chain_after
              (demo_log (PyInt 0) (PyInt 1) (PyStr "") PyNone PyNone PyNone None
                 (Demo.chain 100 true) (Demo.world None)))) = 1%nat
  ∧ segments (Demo.chain 100 true) = [].
Proof. vm_compute. repeat split. Qed.

Lemma log_non_text_name_rejected_witness :
  demo_log (PyInt 0) (PyInt 1) (PyInt 7) PyNone PyNone PyNone None
    (Demo.busy_chain 100 true) (Demo.world None)
  = Raise (ValueError "'name' Parameter must be a string")
      (Demo.busy_chain 100 true) (Demo.world None).
Proof.
  apply (log_non_text_name_rejected Demo.hmac Demo.dumps Demo.uuid1
           (PyInt 0) (PyInt 1) (PyInt 7) PyNone PyNone PyNone None
           (Demo.busy_chain 100 true) (Demo.world None)).
  reflexivity.
Defined.

Example four_records_backlog_three :
  buffer_lengths Demo.hmac Demo.dumps Demo.clock Demo.uuid1
    [demo_record "a"; demo_record "b"; demo_record "c"; demo_record "d"]
    (Demo.chain 3 false) (Demo.world (Some Demo.accepting_sink))
  = [1; 2; 0; 1]%nat.
Proof. vm_compute. reflexivity. Qed.

Lemma mock_flag_resolution_witness :
  mock (demo_init 100 None false None None true
          (Demo.world_with_header (trace_header "1-5759e988-bd862e3fe1be46a994272793"
                                     "53995c3f42cd8ad8" "0"))).1 = true
  ∧ mock (demo_init 100 None false None (Some false) true
            (Demo.world_with_header (trace_header "1-5759e988-bd862e3fe1be46a994272793"
                                       "53995c3f42cd8ad8" "0"))).1 = false
  ∧ mock (demo_init 100 None false None None true (Demo.world None)).1 = false.
Proof.
  split; [| split].
  - apply (proj2 (proj1 (proj2 (mock_flag_resolution Demo.hmac Demo.urandom16 Demo.clock
                                  Demo.uuid1 100 None false None None true
                                  (Demo.world_with_header
                                     (trace_header "1-5759e988-bd862e3fe1be46a994272793"
                                        "53995c3f42cd8ad8" "0"))))
                   eq_refl _ _ "0"
                   (proj2 (proj2 (proj2 (mock_flag_resolution Demo.hmac Demo.urandom16
                                           Demo.clock Demo.uuid1 100 None false None None
                                           true
                                           (Demo.world_with_header
                                              (trace_header
                                                 "1-5759e988-bd862e3fe1be46a994272793"
                                                 "53995c3f42cd8ad8" "0")))))
                      "1-5759e988-bd862e3fe1be46a994272793" "53995c3f42cd8ad8" "0"
                      eq_refl eq_refl eq_refl eq_refl eq_refl))).
    discriminate.
  - apply (proj1 (mock_flag_resolution Demo.hmac Demo.urandom16 Demo.clock Demo.uuid1
                    100 None false None (Some false) true
                    (Demo.world_with_header
                       (trace_header "1-5759e988-bd862e3fe1be46a994272793"
                          "53995c3f42cd8ad8" "0")))).
    reflexivity.
  - apply (proj1 (proj2 (proj2 (mock_flag_resolution Demo.hmac Demo.urandom16 Demo.clock
                                  Demo.uuid1 100 None false None None true
                                  (Demo.world None)))));
      reflexivity.
Defined.

Lemma malformed_header_as_absent_witness :
  (demo_init 100 None false None None true
     (Demo.world_with_header "Root=1-5759e988-bd862e3fe1be46a994272793;Sampled=0")).1
  = (demo_init 100 None false None None true
       (unset_env "_X_AMZN_TRACE_ID"
          (Demo.world_with_header
             "Root=1-5759e988-bd862e3fe1be46a994272793;Sampled=0"))).1
  ∧ parent_id (demo_init 100 None false None None true
                 (Demo.world_with_header
                    "Root=1-5759e988-bd862e3fe1be46a994272793;Sampled=0")).1 = None
  ∧ mock (demo_init 100 None false None None true
            (Demo.world_with_header
               "Root=1-5759e988-bd862e3fe1be46a994272793;Sampled=0")).1 = false
  ∧ trace_id (demo_init 100 None false None None true
                (Demo.world_with_header
                   "Root=1-5759e988-bd862e3fe1be46a994272793;Sampled=0")).1
    = (fresh_trace_id Demo.hmac Demo.clock Demo.uuid1 (Demo.urandom16 0)
         (next_tick (Demo.world_with_header
                       "Root=1-5759e988-bd862e3fe1be46a994272793;Sampled=0"))).1.
Proof.
  apply (malformed_header_as_absent Demo.hmac Demo.urandom16 Demo.clock Demo.uuid1
           100 None false None None true
           (Demo.world_with_header "Root=1-5759e988-bd862e3fe1be46a994272793;Sampled=0")
           "Root=1-5759e988-bd862e3fe1be46a994272793;Sampled=0");
    reflexivity.
Defined.

Lemma flush_mock_mode_witness :
  (∃ w', demo_flush (Demo.busy_chain 100 true) (Demo.world (Some Demo.failing_sink))
         = Return 2%nat (set_segments (Demo.busy_chain 100 true) []) w'
         ∧ segments (set_segments (Demo.busy_chain 100 true) []) = []
         ∧ sink_calls w' = sink_calls (Demo.world (Some Demo.failing_sink)))
  ∧ demo_flush (Demo.chain 100 false) (Demo.world (Some Demo.failing_sink))
    = Return 0%nat (Demo.chain 100 false) (Demo.world (Some Demo.failing_sink)).
Proof.
  split.
  - apply (proj1 (flush_mock_mode Demo.dumps (Demo.busy_chain 100 true)
                    (Demo.world (Some Demo.failing_sink)) eq_refl)).
    reflexivity.
  - apply (proj2 (flush_mock_mode Demo.dumps (Demo.chain 100 false)
                    (Demo.world (Some Demo.failing_sink)) eq_refl)).
    reflexivity.
Defined.

(** Backlog 3 with two segments buffered: the next [log] flushes, and the
    chain that it leaves still has the open span and forks under the id
    that the [log] returned. *)
Lemma flush_changes_only_the_buffer_witness :
  segments (chain_after
              (demo_log (PyInt 0) (PyInt 1) (PyStr "c") PyNone PyNone PyNone None
                 (Demo.busy_chain 3 false) (Demo.world (Some Demo.accepting_sink)))) = []
  ∧ last_segment_id
      (chain_after
         (demo_log (PyInt 0) (PyInt 1) (PyStr "c") PyNone PyNone PyNone None
            (Demo.busy_chain 3 false) (Demo.world (Some Demo.accepting_sink))))
    = Some "u0-k0-0123456789"
  ∧ in_progress (set_segments (Demo.busy_chain 3 false) [])
    = in_progress (Demo.busy_chain 3 false).
Proof.
  pose proof (proj2 (flush_changes_only_the_buffer Demo.hmac Demo.dumps Demo.urandom16
                       Demo.clock Demo.uuid1)
                (PyInt 0) (PyInt 1) (PyStr "c") PyNone PyNone PyNone None
                (Demo.busy_chain 3 false) (Demo.world (Some Demo.accepting_sink))
                "u0-k0-0123456789"
                (chain_after
                   (demo_log (PyInt 0) (PyInt 1) (PyStr "c") PyNone PyNone PyNone None
                      (Demo.busy_chain 3 false) (Demo.world (Some Demo.accepting_sink))))
                (world_after
                   (demo_log (PyInt 0) (PyInt 1) (PyStr "c") PyNone PyNone PyNone None
                      (Demo.busy_chain 3 false) (Demo.world (Some Demo.accepting_sink))))
                eq_refl ltac:(simpl; lia)) as (H1 & H2 & _).
  pose proof (proj1 (flush_changes_only_the_buffer Demo.hmac Demo.dumps Demo.urandom16
                       Demo.clock Demo.uuid1)
                (Demo.busy_chain 3 false) (Demo.world None) 2%nat
                (set_segments (Demo.busy_chain 3 false) []) (Demo.world None) eq_refl)
    as (_ & _ & _ & _ & _ & _ & _ & _ & H3 & _).
  split; [exact H1 |]. split; [exact H2 | exact H3].
Defined.

(** ** The further properties at concrete inputs *)

Local Abbreviation demo_perform_all :=
  (perform_all Demo.hmac Demo.dumps Demo.clock Demo.uuid1).
Local Abbreviation demo_trace := (trace Demo.hmac Demo.dumps Demo.clock Demo.uuid1).
Local Abbreviation demo_trace_associated :=
  (trace_associated Demo.hmac Demo.dumps Demo.clock Demo.uuid1).

Lemma mock_xray_silences_the_process_witness :
  sink_calls (world_after
                (demo_perform_all [demo_record "a"; CallFlush] (Demo.busy_chain 3 false)
                   (mkWorld {[ "MOCK_XRAY" := "" ]} None [] [] 0))) = []
  ∧ stderr (world_after
              (demo_perform_all [demo_record "a"; CallFlush] (Demo.busy_chain 3 false)
                 (mkWorld {[ "MOCK_XRAY" := "" ]} None [] [] 0))) = [].
Proof.
  apply (mock_xray_silences_the_process Demo.hmac Demo.dumps Demo.clock Demo.uuid1
           Demo.failing_sink [demo_record "a"; CallFlush] (Demo.busy_chain 3 false)
           (mkWorld {[ "MOCK_XRAY" := "" ]} None [] [] 0));
    [eexists; reflexivity | reflexivity].
Defined.

Lemma squelch_xray_stops_the_echo_witness :
  stderr (world_after
            (demo_perform_all [demo_record "a"; CallFlush] (Demo.busy_chain 3 false)
               (mkWorld {[ "SQUELCH_XRAY" := "TRUE" ]} (Some Demo.accepting_sink)
                  [] [] 0))) = [].
Proof.
  apply (squelch_xray_stops_the_echo Demo.hmac Demo.dumps Demo.clock Demo.uuid1
           [demo_record "a"; CallFlush] (Demo.busy_chain 3 false)
           (mkWorld {[ "SQUELCH_XRAY" := "TRUE" ]} (Some Demo.accepting_sink) [] [] 0)).
  reflexivity.
Defined.

Lemma mock_chain_never_submits_witness :
  sink_calls (world_after
                (demo_perform_all [demo_record "a"; CallFlush] (Demo.busy_chain 3 true)
                   (Demo.world (Some Demo.failing_sink)))) = [].
Proof.
  apply (mock_chain_never_submits Demo.hmac Demo.dumps Demo.clock Demo.uuid1
           [demo_record "a"; CallFlush] (Demo.busy_chain 3 true)
           (Demo.world (Some Demo.failing_sink))).
  reflexivity.
Defined.

Lemma failed_flush_blocks_every_later_flush_witness :
  flush_lock
    (chain_after
       (demo_perform_all [demo_record "a"]
          (set_flush_lock (Demo.busy_chain 100 false) true) (Demo.world None))) = true
  ∧ (∀ w3,
       demo_flush
         (chain_after
            (demo_perform_all [demo_record "a"]
               (set_flush_lock (Demo.busy_chain 100 false) true) (Demo.world None))) w3
       = Block
           (chain_after
              (demo_perform_all [demo_record "a"]
                 (set_flush_lock (Demo.busy_chain 100 false) true) (Demo.world None)))
           w3)
  ∧ (∀ w3,
       __del__ Demo.dumps
         (chain_after
            (demo_perform_all [demo_record "a"]
               (set_flush_lock (Demo.busy_chain 100 false) true) (Demo.world None))) w3
       = Block
           (chain_after
              (demo_perform_all [demo_record "a"]
                 (set_flush_lock (Demo.busy_chain 100 false) true) (Demo.world None)))
           w3).
Proof.
  apply (failed_flush_blocks_every_later_flush Demo.hmac Demo.dumps Demo.clock Demo.uuid1
           (Demo.busy_chain 100 false) (Demo.world (Some Demo.failing_sink))
           (SinkError "endpoint unreachable")
           (set_flush_lock (Demo.busy_chain 100 false) true)
           (world_after (demo_flush (Demo.busy_chain 100 false)
                           (Demo.world (Some Demo.failing_sink))))
           [demo_record "a"] (Demo.world None)).
  reflexivity.
Defined.

Lemma records_kept_in_order_exactly_once_witness :
  came_back
    (demo_perform_all [demo_record "a"; demo_record "b"; demo_record "c"]
       (Demo.chain 2 false) (Demo.world (Some Demo.accepting_sink))) = true
  ∧ live
      (chain_after
         (demo_perform_all [demo_record "a"; demo_record "b"; demo_record "c"]
            (Demo.chain 2 false) (Demo.world (Some Demo.accepting_sink))))
      (world_after
         (demo_perform_all [demo_record "a"; demo_record "b"; demo_record "c"]
            (Demo.chain 2 false) (Demo.world (Some Demo.accepting_sink))))
  ∧ ∃ docs,
      emitted
        (chain_after
           (demo_perform_all [demo_record "a"; demo_record "b"; demo_record "c"]
              (Demo.chain 2 false) (Demo.world (Some Demo.accepting_sink))))
        (world_after
           (demo_perform_all [demo_record "a"; demo_record "b"; demo_record "c"]
              (Demo.chain 2 false) (Demo.world (Some Demo.accepting_sink))))
      = emitted (Demo.chain 2 false) (Demo.world (Some Demo.accepting_sink)) ++ docs
      ∧ (length docs ≤ 3)%nat
      ∧ (forallb is_record_call [demo_record "a"; demo_record "b"; demo_record "c"]
         = true → length docs = 3%nat).
Proof.
  apply (records_kept_in_order_exactly_once Demo.hmac Demo.dumps Demo.clock Demo.uuid1
           [demo_record "a"; demo_record "b"; demo_record "c"]
           (Demo.chain 2 false) (Demo.world (Some Demo.accepting_sink))).
  split; [reflexivity |]. split; [eexists; reflexivity |].
  split; [reflexivity | exact accepting_sink_never_raises].
Defined.

(** Three records with backlog 2: one batch of two went to the sink, the
    third record is in the buffer. *)
Example three_records_backlog_two :
  map length
      (sink_calls
         (world_after
            (demo_perform_all [demo_record "a"; demo_record "b"; demo_record "c"]
               (Demo.chain 2 false) (Demo.world (Some Demo.accepting_sink)))))
  = [2%nat]
  ∧ length
      (segments
         (chain_after
            (demo_perform_all [demo_record "a"; demo_record "b"; demo_record "c"]
               (Demo.chain 2 false) (Demo.world (Some Demo.accepting_sink)))))
    = 1%nat.
Proof. vm_compute. split; reflexivity. Qed.

Lemma log_segment_id_witness :
  last_segment_id
    (chain_after
       (demo_log (PyInt 0) (PyInt 1) (PyStr "x") PyNone PyNone PyNone
          (Some "00000000000000b7") (Demo.busy_chain 3 false)
          (Demo.world (Some Demo.failing_sink))))
  = Some "00000000000000b7"
  ∧ last_segment_id
      (chain_after
         (demo_log (PyInt 0) (PyInt 1) (PyStr "x") PyNone PyNone PyNone
            (Some "") (Demo.chain 3 false) (Demo.world None)))
    = Some (take_chars 16 (Demo.hmac Demo.key (Demo.uuid1 0))).
Proof.
  split.
  - apply (log_segment_id Demo.hmac Demo.dumps Demo.uuid1
             (PyInt 0) (PyInt 1) (PyStr "x") PyNone PyNone PyNone
             (Some "00000000000000b7") (Demo.busy_chain 3 false)
             (Demo.world (Some Demo.failing_sink)) eq_refl).
  - apply (log_segment_id Demo.hmac Demo.dumps Demo.uuid1
             (PyInt 0) (PyInt 1) (PyStr "x") PyNone PyNone PyNone
             (Some "") (Demo.chain 3 false) (Demo.world None) eq_refl).
Defined.

Lemma log_end_completes_the_span_witness :
  in_progress
    (chain_after
       (demo_log_end "00000000000000a2" PyNone PyNone PyNone
          (Demo.busy_chain 100 false) (Demo.world (Some Demo.failing_sink))))
  = delete "00000000000000a2" (in_progress (Demo.busy_chain 100 false))
  ∧ last_segment_id
      (chain_after
         (demo_log_end "00000000000000a2" PyNone PyNone PyNone
            (Demo.busy_chain 100 false) (Demo.world (Some Demo.failing_sink))))
    = Some "00000000000000a2".
Proof.
  pose proof (log_end_completes_the_span Demo.hmac Demo.dumps Demo.clock Demo.uuid1
                "00000000000000a2" PyNone PyNone PyNone
                (Demo.busy_chain 100 false) (Demo.world (Some Demo.failing_sink))
                (mkSpan (PyInt 1) (PyStr "work")) eq_refl) as [H1 H2].
  split; [exact H1 |]. apply H2; [reflexivity | discriminate].
Defined.

(** The completed record of the span of [Demo.busy_chain]: same id, the
    stored start time and name, an end time, no [in_progress]. *)
Example log_end_record :
  last (segments
          (chain_after
             (demo_log_end "00000000000000a2" PyNone PyNone PyNone
                (Demo.busy_chain 100 false) (Demo.world None))))
  = Some ("{name=work,id=00000000000000a2,"
          +:+ "trace_id=1-6553f101-0123456789abcdef01234567,start_time=_,end_time=_}").
Proof. vm_compute. reflexivity. Qed.

Lemma forked_chain_starts_empty_witness :
  segments (demo_init 100 (Some "00000000000000a2") true
              (Some Demo.trace) (Some false) true (Demo.world None)).1 = []
  ∧ ∀ p2 w2,
      demo_fork_subsegment p2
        (demo_init 100 (Some "00000000000000a2") true
           (Some Demo.trace) (Some false) true (Demo.world None)).1 w2
      = inl (RuntimeError
               "Cannot create a subsegment fork() from a chain that has never emitted a segment").
Proof.
  pose proof (forked_chain_starts_empty Demo.hmac Demo.dumps Demo.urandom16 Demo.clock
                Demo.uuid1 true None (Demo.busy_chain 100 false) (Demo.world None)
                (demo_init 100 (Some "00000000000000a2") true
                   (Some Demo.trace) (Some false) true (Demo.world None)).1
                (demo_init 100 (Some "00000000000000a2") true
                   (Some Demo.trace) (Some false) true (Demo.world None)).2
                eq_refl) as (H1 & _ & _ & _ & _ & _ & H2 & _).
  split; [exact H1 | exact H2].
Defined.

Lemma backlog_of_one_flushes_every_record_witness :
  ∃ id c' w',
    demo_log (PyInt 0) (PyInt 1) (PyStr "x") PyNone PyNone PyNone None
      (Demo.chain 0 false) (Demo.world (Some Demo.accepting_sink))
    = Return id c' w'
    ∧ segments c' = []
    ∧ (mock (Demo.chain 0 false) = false →
       is_Some (client (Demo.world (Some Demo.accepting_sink))) →
       sink_calls w'
       = sink_calls (Demo.world (Some Demo.accepting_sink))
         ++ [segments (Demo.chain 0 false)
             ++ [Demo.dumps (segment_dict (Demo.chain 0 false) (PyInt 0) (PyInt 1)
                               (PyStr "x") PyNone PyNone PyNone id)]]).
Proof.
  apply (backlog_of_one_flushes_every_record Demo.hmac Demo.dumps Demo.uuid1
           (PyInt 0) (PyInt 1) (PyStr "x") PyNone PyNone PyNone None
           (Demo.chain 0 false) (Demo.world (Some Demo.accepting_sink)));
    [simpl; lia | reflexivity | reflexivity | exact accepting_sink_never_raises].
Defined.

Lemma flush_then_flush_returns_zero_witness :
  2%nat = length (segments (Demo.busy_chain 100 true))
  ∧ ∀ w2, demo_flush (set_segments (Demo.busy_chain 100 true) []) w2
          = Return 0%nat (set_segments (Demo.busy_chain 100 true) []) w2.
Proof.
  apply (flush_then_flush_returns_zero Demo.dumps (Demo.busy_chain 100 true)
           (Demo.world None) 2%nat (set_segments (Demo.busy_chain 100 true) [])
           (Demo.world None)).
  reflexivity.
Defined.

Lemma generated_trace_id_format_witness :
  ∃ time_part,
    (fresh_trace_id Demo.hmac Demo.clock Demo.uuid1 Demo.key (Demo.world None)).1
    = "1-" +:+ time_part +:+ "-"
      +:+ take_chars 24 (Demo.hmac Demo.key (Demo.uuid1 (S (tick (Demo.world None)))))
    ∧ HexString.to_Z ("0x" +:+ time_part)
      = py_int_of_float (Demo.clock (tick (Demo.world None)))
    ∧ ((24 ≤ String.length
               (Demo.hmac Demo.key (Demo.uuid1 (S (tick (Demo.world None))))))%nat →
       String.length
         (take_chars 24 (Demo.hmac Demo.key (Demo.uuid1 (S (tick (Demo.world None))))))
       = 24%nat).
Proof.
  apply (generated_trace_id_format Demo.hmac Demo.clock Demo.uuid1 Demo.key
           (Demo.world None)).
  split; [apply Z.leb_le | apply Z.ltb_lt]; vm_compute; reflexivity.
Defined.

(** The clock of the test double stands at 1700000000 seconds, 6553f100 in
    hexadecimal. *)
Example generated_trace_id :
  (fresh_trace_id Demo.hmac Demo.clock Demo.uuid1 Demo.key (Demo.world None)).1
  = "1-6553f100-u1-k0-0123456789abcdef01".
Proof. vm_compute. reflexivity. Qed.

Lemma offline_chain_never_blocks_witness :
  came_back
    (demo_perform_all
       [demo_record "a"; CallLogEnd "00000000000000a2" PyNone PyNone PyNone; CallFlush]
       (Demo.busy_chain 3 true) (Demo.world (Some Demo.failing_sink))) = true
  ∧ flush_lock
      (chain_after
         (demo_perform_all
            [demo_record "a"; CallLogEnd "00000000000000a2" PyNone PyNone PyNone;
             CallFlush]
            (Demo.busy_chain 3 true) (Demo.world (Some Demo.failing_sink)))) = false.
Proof.
  pose proof (offline_chain_never_blocks Demo.hmac Demo.dumps Demo.clock Demo.uuid1
                [demo_record "a"; CallLogEnd "00000000000000a2" PyNone PyNone PyNone;
                 CallFlush]
                (Demo.busy_chain 3 true) (Demo.world (Some Demo.failing_sink))
                (or_introl eq_refl) eq_refl) as (H1 & H2 & _).
  split; [exact H1 | exact H2].
Defined.

(** The wrapped function of these examples records one segment itself. *)
Local Abbreviation demo_target :=
  (λ c w, demo_log (PyInt 0) (PyInt 1) (PyStr "inner") PyNone PyNone PyNone None c w).

Lemma trace_records_after_the_call_witness :
  demo_trace (PyInt 7) demo_target (Demo.chain 100 true) (Demo.world None)
  = Raise (ValueError "'name' Parameter must be a string")
      (chain_after (demo_target (Demo.chain 100 true) (next_tick (Demo.world None))))
      (next_tick
         (world_after (demo_target (Demo.chain 100 true) (next_tick (Demo.world None)))))
  ∧ length
      (segments
         (chain_after
            (demo_trace (PyInt 7) demo_target (Demo.chain 100 true) (Demo.world None))))
    = 1%nat.
Proof.
  split; [| reflexivity].
  apply (proj2 (proj2 (trace_records_after_the_call Demo.hmac Demo.dumps Demo.clock
                         Demo.uuid1 (PyInt 7) demo_target (Demo.chain 100 true)
                         (Demo.world None)))
           "u1-k0-0123456789"
           (chain_after (demo_target (Demo.chain 100 true) (next_tick (Demo.world None))))
           (world_after (demo_target (Demo.chain 100 true) (next_tick (Demo.world None))))
           eq_refl).
  reflexivity.
Defined.

(** [trace] around a function that records a segment: the segment of the
    function comes first in the buffer, the one of the wrapper second. *)
Example trace_order_of_records :
  segments
    (chain_after
       (demo_trace (PyStr "outer") demo_target (Demo.chain 100 true) (Demo.world None)))
  = ["{name=inner,id=u1-k0-0123456789,"
     +:+ "trace_id=1-6553f101-0123456789abcdef01234567,start_time=_,end_time=_}";
     "{name=outer,id=u3-k0-0123456789,"
     +:+ "trace_id=1-6553f101-0123456789abcdef01234567,start_time=_,end_time=_}"].
Proof. vm_compute. reflexivity. Qed.


(** [trace_associated] around a function that records a segment: the
    in-progress record, the record of the function, the completed record
    under the id of the first. *)
Example trace_associated_order_of_records :
  segments
    (chain_after
       (demo_trace_associated (PyStr "outer") demo_target (Demo.chain 100 true)
          (Demo.world None)))
  = ["{name=outer,id=u1-k0-0123456789,"
     +:+ "trace_id=1-6553f101-0123456789abcdef01234567,start_time=_,in_progress=true}";
     "{name=inner,id=u2-k0-0123456789,"
     +:+ "trace_id=1-6553f101-0123456789abcdef01234567,start_time=_,end_time=_}";
     "{name=outer,id=u1-k0-0123456789,"
     +:+ "trace_id=1-6553f101-0123456789abcdef01234567,start_time=_,end_time=_}"].
Proof. vm_compute. reflexivity. Qed.

(** Keys in any order, a key given twice, a key that is not used. *)
Example parse_out_of_order :
  parse_trace_header "Sampled=0;Root=a;Parent=b;Self=c;Root=d" = Some ("d", "b", "0").
Proof. reflexivity. Qed.

(** ** The backlog, the spans and the forks at concrete inputs *)

(** A chain with backlog 3 on which two segments were recorded, in a
    process whose sink raises. *)
Local Abbreviation two_recorded :=
  (demo_perform_all [demo_record "a"; demo_record "b"] (Demo.chain 3 false)
     (Demo.world (Some Demo.failing_sink))).



(** A chain on which [log_start] has opened a span, in mock mode. *)
Local Abbreviation span_opened :=
  (demo_log_start (PyStr "work") (Demo.chain 100 true) (Demo.world None)).

(** A chain with backlog 2 on which [log_start] has opened a span, in a
    process whose sink raises. *)
Local Abbreviation span_opened_failing :=
  (demo_log_start (PyStr "work") (Demo.chain 2 false)
     (Demo.world (Some Demo.failing_sink))).

(** C7 as the specification states it does not hold: the span was opened,
    its close fills the backlog and the sink raises, so the close raises
    with the span already taken out, and the next close raises the lookup
    error: no close of this span succeeds. *)
Lemma no_close_succeeds_when_the_sink_raises :
  span_opened_failing
  = Return "u1-k0-0123456789" (chain_after span_opened_failing)
      (world_after span_opened_failing)
  ∧ demo_log_end "u1-k0-0123456789" PyNone PyNone PyNone
      (chain_after span_opened_failing) (world_after span_opened_failing)
    = Raise (SinkError "endpoint unreachable")
        (chain_after
           (demo_log_end "u1-k0-0123456789" PyNone PyNone PyNone
              (chain_after span_opened_failing) (world_after span_opened_failing)))
        (world_after
           (demo_log_end "u1-k0-0123456789" PyNone PyNone PyNone
              (chain_after span_opened_failing) (world_after span_opened_failing)))
  ∧ demo_log_end "u1-k0-0123456789" PyNone PyNone PyNone
      (chain_after
         (demo_log_end "u1-k0-0123456789" PyNone PyNone PyNone
            (chain_after span_opened_failing) (world_after span_opened_failing)))
      (world_after
         (demo_log_end "u1-k0-0123456789" PyNone PyNone PyNone
            (chain_after span_opened_failing) (world_after span_opened_failing)))
    = Raise (KeyError "u1-k0-0123456789")
        (chain_after
           (demo_log_end "u1-k0-0123456789" PyNone PyNone PyNone
              (chain_after span_opened_failing) (world_after span_opened_failing)))
        (world_after
           (demo_log_end "u1-k0-0123456789" PyNone PyNone PyNone
              (chain_after span_opened_failing) (world_after span_opened_failing))).
Proof. vm_compute. repeat split. Qed.

Lemma log_end_closes_exactly_once_witness :
  demo_log_end "00000000000000ff" PyNone PyNone PyNone
    (chain_after span_opened) (world_after span_opened)
  = Raise (KeyError "00000000000000ff") (chain_after span_opened)
      (world_after span_opened)
  ∧ (∃ c' w',
       demo_log_end "u1-k0-0123456789" PyNone PyNone PyNone
         (chain_after span_opened) (world_after span_opened)
       = Return "u1-k0-0123456789" c' w')
  ∧ (∀ w3,
       demo_log_end "u1-k0-0123456789" PyNone PyNone PyNone
         (chain_after
            (demo_log_end "u1-k0-0123456789" PyNone PyNone PyNone
               (chain_after span_opened) (world_after span_opened))) w3
       = Raise (KeyError "u1-k0-0123456789")
           (chain_after
              (demo_log_end "u1-k0-0123456789" PyNone PyNone PyNone
                 (chain_after span_opened) (world_after span_opened))) w3)
  ∧ in_progress (chain_after span_opened) !! "u1-k0-0123456789"
    = Some (mkSpan (PyFloat (Demo.clock 0)) (PyStr "work")).
Proof.
  split; [| split; [| split]].
  - apply (proj1 (log_end_closes_exactly_once Demo.hmac Demo.dumps Demo.clock Demo.uuid1
                    "00000000000000ff" PyNone PyNone PyNone
                    (chain_after span_opened) (world_after span_opened))).
    reflexivity.
  - destruct (proj2 (proj2 (proj1 (proj2
                (log_end_closes_exactly_once Demo.hmac Demo.dumps Demo.clock Demo.uuid1
                   "u1-k0-0123456789" PyNone PyNone PyNone
                   (chain_after span_opened) (world_after span_opened)))
                (mkSpan (PyFloat (Demo.clock 0)) (PyStr "work")) eq_refl))
               eq_refl eq_refl (or_introl (or_introl eq_refl)))
      as (c' & w' & E & _).
    exists c', w'. exact E.
  - intros w3.
    apply (proj1 (proj2 (proj1 (proj2
             (log_end_closes_exactly_once Demo.hmac Demo.dumps Demo.clock Demo.uuid1
                "u1-k0-0123456789" PyNone PyNone PyNone
                (chain_after span_opened) (world_after span_opened)))
             (mkSpan (PyFloat (Demo.clock 0)) (PyStr "work")) eq_refl))
            [] (Demo.world None) PyNone PyNone PyNone w3 eq_refl).
  - apply (proj2 (proj2 (log_end_closes_exactly_once Demo.hmac Demo.dumps Demo.clock
                           Demo.uuid1 "00000000000000ff" PyNone PyNone PyNone
                           (Demo.chain 100 true) (Demo.world None)))
             (PyStr "work") "u1-k0-0123456789" (chain_after span_opened)
             (world_after span_opened) eq_refl).
Defined.

(** A chain on which [log] has recorded a segment and returned its id. *)
Local Abbreviation one_logged :=
  (demo_log (PyInt 0) (PyInt 1) (PyStr "x") PyNone PyNone PyNone None
     (Demo.chain 1 true) (Demo.world None)).

Lemma fork_without_parent_inherits_witness :
  one_logged = Return "u0-k0-0123456789" (chain_after one_logged) (world_after one_logged)
  ∧ segments (chain_after one_logged) = []
  ∧ (∃ child w', demo_fork_root None (chain_after one_logged) (world_after one_logged)
                 = inr (child, w')
                 ∧ parent_id child = Some "u0-k0-0123456789"
                 ∧ trace_id child = trace_id (chain_after one_logged)
                 ∧ backlog child = backlog (chain_after one_logged)
                 ∧ mock child = mock (chain_after one_logged)
                 ∧ subsegment child = false)
  ∧ (∃ child w',
       demo_fork_subsegment None (chain_after one_logged) (world_after one_logged)
       = inr (child, w')
       ∧ parent_id child = Some "u0-k0-0123456789"
       ∧ trace_id child = trace_id (chain_after one_logged)
       ∧ backlog child = backlog (chain_after one_logged)
       ∧ mock child = mock (chain_after one_logged)
       ∧ subsegment child = true).
Proof.
  split; [reflexivity |]. split; [reflexivity |].
  apply (fork_without_parent_inherits Demo.hmac Demo.dumps Demo.urandom16 Demo.clock
           Demo.uuid1 (chain_after one_logged) (world_after one_logged)
           "u0-k0-0123456789").
  apply (emitted_by_log Demo.hmac Demo.dumps Demo.clock Demo.uuid1
           (PyInt 0) (PyInt 1) (PyStr "x") PyNone PyNone PyNone None
           (Demo.chain 1 true) (Demo.world None) "u0-k0-0123456789"
           (chain_after one_logged) (world_after one_logged)).
  reflexivity.
Defined.
